(** * issho: a scripted session over one remote shell connection

    A shallow embedding of [issho/issho.py] (class [Issho]) and the
    properties of its command dispatcher, file-transfer workflow,
    authentication bootstrap and job submission.

    Python strings are [String.string]; a value that may be [None] is a
    [pyval]; a [dict] is an association list in insertion order; the
    remote host, the secret store, the clock and [pathlib] are an
    environment record [Env]; printing, the error channel and the remote
    invocations are threaded through an explicit state with exceptions. *)

From Stdlib Require Import String Ascii List Bool NArith.
From Stdlib Require Import Permutation Sorting.Sorted OrderedTypeEx.
Import ListNotations.
Open Scope string_scope.

(** ** Python string primitives used by the source *)

Module Py.

(** A value that is either [None] or a [str]. *)
Inductive pyval : Type :=
| PyNone
| PyStr (s : string).

(** Truth value of a string: only the empty string is falsy. *)
Definition truthy_str (s : string) : bool :=
  match s with
  | EmptyString => false
  | String _ _ => true
  end.

(** Truth value of [None] or a string. *)
Definition truthy (v : pyval) : bool :=
  match v with
  | PyNone => false
  | PyStr s => truthy_str s
  end.

(** [str(v)], also what [format] inserts for a placeholder. *)
Definition str (v : pyval) : string :=
  match v with
  | PyNone => "None"
  | PyStr s => s
  end.

Definition dquote : string := String "034"%char EmptyString.
Definition backslash : string := String "092"%char EmptyString.
Definition newline : string := String "010"%char EmptyString.

(** [s.replace(c, new)] for a one-character pattern [c]; every pattern
    the source replaces is one character long. *)
Fixpoint replace_char (c : ascii) (new s : string) : string :=
  match s with
  | EmptyString => EmptyString
  | String a rest =>
      if Ascii.eqb a c then new ++ replace_char c new rest
      else String a (replace_char c new rest)
  end.

(** [s.startswith(p)]. *)
Definition startswith (p s : string) : bool := String.prefix p s.

(** [re.sub("^-*", "", s)]: the pattern is anchored at the start of the
    string, so the one match is the leading run of dashes. *)
Fixpoint lstrip_dashes (s : string) : string :=
  match s with
  | String "-"%char rest => lstrip_dashes rest
  | _ => s
  end.

(** Whitespace as [str.strip] sees it, on the one-byte characters. *)
Definition isspace (c : ascii) : bool :=
  let n := N_of_ascii c in
  ((9 <=? n) && (n <=? 13) || (28 <=? n) && (n <=? 32))%N.

Fixpoint lstrip (s : string) : string :=
  match s with
  | EmptyString => EmptyString
  | String c rest => if isspace c then lstrip rest else s
  end.

Fixpoint rstrip (s : string) : string :=
  match s with
  | EmptyString => EmptyString
  | String c rest =>
      match rstrip rest with
      | EmptyString => if isspace c then EmptyString else String c EmptyString
      | r => String c r
      end
  end.

(** [s.strip()]. *)
Definition strip (s : string) : string := rstrip (lstrip s).

(** [sep.join(l)]. *)
Definition join (sep : string) (l : list string) : string :=
  String.concat sep l.

(** A [dict] with string keys and values, in insertion order. *)
Definition dict : Type := list (string * string).

Definition keys (d : dict) : list string := map fst d.

(** [d.get(k)]. *)
Fixpoint dict_get (d : dict) (k : string) : option string :=
  match d with
  | [] => None
  | (k', v') :: rest => if String.eqb k' k then Some v' else dict_get rest k
  end.

(** [d[k] = v]: an existing key keeps its position, a new key goes last. *)
Fixpoint dict_set (d : dict) (k v : string) : dict :=
  match d with
  | [] => [(k, v)]
  | (k', v') :: rest =>
      if String.eqb k' k then (k, v) :: rest
      else (k', v') :: dict_set rest k v
  end.

(** Insertion into a list sorted by key; the new item goes before the
    first item whose key is not smaller, which keeps the sort stable. *)
Fixpoint insert_by_key (x : string * string) (l : dict) : dict :=
  match l with
  | [] => [x]
  | y :: rest =>
      if String.leb (fst x) (fst y) then x :: y :: rest
      else y :: insert_by_key x rest
  end.

(** [sorted(d.items(), key=lambda x: x[0])]. *)
Fixpoint sorted_by_key (l : dict) : dict :=
  match l with
  | [] => []
  | x :: rest => insert_by_key x (sorted_by_key rest)
  end.

(** [Path(p).name]: the last non-empty segment of [p]. *)
Fixpoint last_segment_aux (s cur last : string) : string :=
  match s with
  | EmptyString =>
      match cur with
      | EmptyString => last
      | _ => cur
      end
  | String "/"%char rest =>
      match cur with
      | EmptyString => last_segment_aux rest EmptyString last
      | _ => last_segment_aux rest EmptyString cur
      end
  | String c rest =>
      last_segment_aux rest (cur ++ String c EmptyString) last
  end.

Definition last_segment (s : string) : string :=
  last_segment_aux s EmptyString EmptyString.

End Py.
Import Py.

(** ** The helper module [issho.helpers]

    [issho.py] imports these pure functions; the session code is written
    against them, and so is the embedding. *)

Class Helpers : Type := {
  (** [add_arguments_to_cmd(cmd, *args)]: the command line for a verb
      and its arguments. *)
  add_arguments_to_cmd : string -> list pyval -> string;
  (** [clean_spark_options(spark_options)]. *)
  clean_spark_options : dict -> dict;
  (** [default_sftp_path(this_path, default_path)]: a path, written as
      its [str]. *)
  default_sftp_path : pyval -> pyval -> pyval;
  (** [issho_pw_name(pw_type=..., profile=...)]: the key of a secret. *)
  issho_pw_name : string -> string -> string
}.

(** Modelled from the spec: [add_arguments_to_cmd] is not under src/.
    "Builds the shell command by joining the verb with args"; each
    argument is inserted verbatim, in call order:
    [buildCommand("ls", "-la", "/tmp") == "ls -la /tmp"]. *)
Definition spec_add_arguments_to_cmd (cmd : string) (args : list pyval)
  : string :=
  join " " (cmd :: map str args).

(** Modelled from the spec: [clean_spark_options] is not under src/.
    The merged options are cleaned into option names: shorthand fields
    [{master: "m1", jars: "j1"}] render as [--jars j1 --master m1]. *)
Definition spec_clean_spark_options (d : dict) : dict :=
  map (fun kv => ("--" ++ fst kv, snd kv)) d.

(** Modelled from the spec: [default_sftp_path] is not under src/.
    "if either side of the pair is omitted, it defaults to the last
    path-segment of the other side". *)
Definition spec_default_sftp_path (this_path default_path : pyval) : pyval :=
  match this_path with
  | PyStr p => PyStr p
  | PyNone =>
      match default_path with
      | PyStr d => PyStr (last_segment d)
      | PyNone => PyNone
      end
  end.

(** Modelled from the spec: [issho_pw_name] is not under src/.
    Key format: ["<profile>_<kind>"]. *)
Definition spec_issho_pw_name (pw_type profile : string) : string :=
  profile ++ "_" ++ pw_type.

(** The helper module as the spec describes it. *)
Definition spec_helpers : Helpers := {|
  add_arguments_to_cmd := spec_add_arguments_to_cmd;
  clean_spark_options := spec_clean_spark_options;
  default_sftp_path := spec_default_sftp_path;
  issho_pw_name := spec_issho_pw_name
|}.

(** ** The world around a session *)

(** What the session asks of the remote host, in order. *)
Inductive Event : Type :=
| ExecCommand (cmd : string)
| SftpGet (remotepath localpath : string)
| SftpPut (localpath remotepath : string).

(** The collaborators of a session. The remote host answers by the
    history of the connection, so its answers may change over time. *)
Record Env : Type := {
  (** [paramiko]'s [exec_command]: the lines of the remote standard
      output and standard error, or [None] when the transport fails. *)
  exec_command : list Event -> string -> option (list string * list string);
  (** [sftp.get]: the progress reports [(transferred, to_transfer)] and
      whether the transfer succeeded. *)
  sftp_get : list Event -> string -> string -> list (N * N) * bool;
  (** [sftp.put], likewise. *)
  sftp_put : list Event -> string -> string -> list (N * N) * bool;
  (** [str(time.time())] at this point of the history. *)
  time_time : list Event -> string;
  (** [str(Path(p).expanduser())] on the local machine. *)
  expanduser : string -> string;
  (** [humanize.naturalsize]. *)
  naturalsize : N -> string;
  (** [repr] of the argument tuple, as [print(args)] shows it. *)
  repr_args : list pyval -> string;
  (** [keyring.get_password(service, username)]. *)
  keyring_get_password : string -> string -> pyval
}.

(** Exceptions the embedded code raises or lets through. *)
Inductive exn : Type :=
| AssertionError
| AttributeError
| OSError (msg : string)
| SSHException
| IOError.

(** The caller's output channel, the caller's error channel, and the
    remote invocations made so far. *)
Record State : Type := {
  stdout : list string;
  stderr : list string;
  trace : list Event
}.

(** The fields of [self] that the embedded methods read. *)
Record Session : Type := {
  profile : string;
  local_user : string;
  _remote_home_dir : string
}.

(** Keyword flags of [exec]. *)
Record Kwargs : Type := {
  bg : bool;
  debug : bool;
  capture_output : bool
}.

Definition default_kwargs : Kwargs :=
  {| bg := false; debug := false; capture_output := false |}.

(** The resolved pair of [_sftp_paths]. *)
Module Paths.
Record t : Type := {
  localpath : string;
  remotepath : string
}.
End Paths.

(** ** State and exceptions *)

Definition M (A : Type) : Type := State -> (exn + A) * State.

Definition ret {A : Type} (a : A) : M A := fun st => (inr a, st).

Definition raise {A : Type} (e : exn) : M A := fun st => (inl e, st).

Definition bind {A B : Type} (m : M A) (k : A -> M B) : M B :=
  fun st =>
    match m st with
    | (inl e, st') => (inl e, st')
    | (inr a, st') => k a st'
    end.

Definition lift {A : Type} (r : exn + A) : M A := fun st => (r, st).

Declare Scope issho_scope.
Delimit Scope issho_scope with issho.
Notation "x <- m ;; k" := (bind m (fun x => k))
  (at level 61, m at next level, right associativity) : issho_scope.
Notation "m ;; k" := (bind m (fun _ => k))
  (at level 61, right associativity) : issho_scope.
Open Scope issho_scope.

(** [print(s, end="")]. *)
Definition print (s : string) : M unit := fun st =>
  (inr tt,
   {| stdout := stdout st ++ [s]; stderr := stderr st; trace := trace st |}).

(** [sys.stderr.write(s)]. *)
Definition stderr_write (s : string) : M unit := fun st =>
  (inr tt,
   {| stdout := stdout st; stderr := stderr st ++ [s]; trace := trace st |}).

Definition log (e : Event) : M unit := fun st =>
  (inr tt,
   {| stdout := stdout st; stderr := stderr st; trace := trace st ++ [e] |}).

(** ** The methods of [Issho] *)

Section Methods.

Context {H : Helpers} (env : Env).

(** The detached form of a command line:
    ['cmd=$"{}"; nohup bash -c "$cmd" &'.format(cmd.replace('"', r"\""))]. *)
Definition bg_wrap (cmd : string) : string :=
  "cmd=$" ++ dquote
    ++ replace_char "034"%char (backslash ++ dquote) cmd
    ++ dquote ++ "; nohup bash -c " ++ dquote ++ "$cmd" ++ dquote ++ " &".

(** The command line [exec] sends: the helper's command, wrapped when
    [bg] is set. *)
Definition command_line (cmd : string) (args : list pyval) (kw : Kwargs)
  : string :=
  let cmd := add_arguments_to_cmd cmd args in
  if bg kw then bg_wrap cmd else cmd.

(** What [debug] prints before the command is sent:
    [print(args); print(cmd)]. *)
Definition debug_output (cmd : string) (args : list pyval) (kw : Kwargs)
  : list string :=
  if debug kw
  then [repr_args env args ++ newline; command_line cmd args kw ++ newline]
  else [].

(** [self._ssh.exec_command(cmd)]. *)
Definition ssh_exec_command (cmd : string)
  : M (list string * list string) := fun st =>
  let answer := exec_command env (trace st) cmd in
  let st' := snd (log (ExecCommand cmd) st) in
  match answer with
  | Some streams => (inr streams, st')
  | None => (inl SSHException, st')
  end.

(** The loop over the lines of the remote standard output. *)
Fixpoint read_stdout (capture : bool) (lines : list string)
  (captured_output : string) : M string :=
  match lines with
  | [] => ret captured_output
  | line :: rest =>
      if capture then read_stdout capture rest (captured_output ++ line)
      else print line ;; read_stdout capture rest captured_output
  end.

(** The loop over the lines of the remote standard error. *)
Fixpoint read_stderr (lines : list string) : M unit :=
  match lines with
  | [] => ret tt
  | line :: rest => stderr_write line ;; read_stderr rest
  end.

(** [Issho.exec(cmd, *args, bg, debug, capture_output)]. *)
Definition exec (cmd : string) (args : list pyval) (kw : Kwargs) : M string :=
  let cmd := command_line cmd args kw in
  (if debug kw
   then print (repr_args env args ++ newline) ;; print (cmd ++ newline)
   else ret tt) ;;
  streams <- ssh_exec_command cmd ;;
  captured_output <- read_stdout (capture_output kw) (fst streams) EmptyString ;;
  read_stderr (snd streams) ;;
  ret captured_output.

(** [Issho.exec_bg]: [exec(bg=True)]. *)
Definition exec_bg (cmd : string) (args : list pyval) (kw : Kwargs)
  : M string :=
  exec cmd args
    {| bg := true; debug := debug kw; capture_output := capture_output kw |}.

(** [Issho.get_output]: [exec(capture_output=True)]. *)
Definition get_output (cmd : string) (args : list pyval) (kw : Kwargs)
  : M string :=
  exec cmd args
    {| bg := bg kw; debug := debug kw; capture_output := true |}.

(** The names that attribute lookup finds on a session without asking
    [__getattr__]: the instance fields and the methods of the class. *)
Definition issho_attributes : list string :=
  [ "local_user"; "profile"; "issho_conf"; "ssh_conf"; "hostname"; "user";
    "port"; "_ssh"; "_remote_home_dir";
    "local_forward"; "exec"; "exec_bg"; "get_output"; "get"; "put"; "kinit";
    "hive"; "spark_submit"; "spark"; "hadoop"; "hdfs"; "_connect";
    "_sftp_paths"; "_sftp_progress"; "_get_password" ].

(** [Issho.__getattr__(method_name)]:
    [partial(self.exec, method_name.replace("_", " "))]. *)
Definition getattr_ (method_name : string)
  : list pyval -> Kwargs -> M string :=
  exec (replace_char "_"%char " " method_name).

(** Attribute lookup for a call [session.name(...)]: [__getattr__] is
    asked only for a name that the session does not define. *)
Definition dynamic_method (name : string)
  : option (list pyval -> Kwargs -> M string) :=
  if existsb (String.eqb name) issho_attributes then None
  else Some (getattr_ name).

(** [Issho.hadoop(command, *args, **kwargs)]. *)
Definition hadoop (command : string) (args : list pyval) (kw : Kwargs)
  : M string :=
  let hadoop_cmd := "-" ++ lstrip_dashes command in
  exec "hadoop fs" (PyStr hadoop_cmd :: args) kw.

(** [Issho.hdfs]: [hadoop]. *)
Definition hdfs (command : string) (args : list pyval) (kw : Kwargs)
  : M string :=
  hadoop command args kw.

(** [Issho._sftp_paths(localpath, remotepath)]. [None.expanduser()]
    raises [AttributeError]. *)
Definition _sftp_paths (self : Session) (localpath remotepath : pyval)
  : exn + Paths.t :=
  let localpath := default_sftp_path localpath remotepath in
  let remotepath := default_sftp_path remotepath localpath in
  match localpath with
  | PyNone => inl AttributeError
  | PyStr lp =>
      inr {| Paths.localpath := expanduser env lp;
             Paths.remotepath :=
               replace_char "~"%char (_remote_home_dir self) (str remotepath) |}
  end.

(** [Issho._sftp_progress(transferred, to_transfer)]. *)
Definition _sftp_progress (report : N * N) : M unit :=
  print (naturalsize env (fst report) ++ " transferred out of a total of "
           ++ naturalsize env (snd report) ++ newline).

Fixpoint report_progress (reports : list (N * N)) : M unit :=
  match reports with
  | [] => ret tt
  | r :: rest => _sftp_progress r ;; report_progress rest
  end.

(** [with self._ssh.open_sftp() as sftp: sftp.get(...)]. *)
Definition sftp_get_file (remotepath localpath : string) : M unit :=
  fun st =>
    let answer := sftp_get env (trace st) remotepath localpath in
    (log (SftpGet remotepath localpath) ;;
     report_progress (fst answer) ;;
     if snd answer then ret tt else raise IOError) st.

(** [with self._ssh.open_sftp() as sftp: sftp.put(...)]. *)
Definition sftp_put_file (localpath remotepath : string) : M unit :=
  fun st =>
    let answer := sftp_put env (trace st) localpath remotepath in
    (log (SftpPut localpath remotepath) ;;
     report_progress (fst answer) ;;
     if snd answer then ret tt else raise IOError) st.

(** ["/tmp/{}_{}".format(name.replace("/", "_"), time.time())]. *)
Definition tmp_path_for (name : string) (st : State) : string :=
  "/tmp/" ++ replace_char "/"%char "_" name ++ "_" ++ time_time env (trace st).

(** [Issho.get(remotepath, localpath=None, hadoop=False)]. *)
Definition get (self : Session) (remotepath : string) (localpath : pyval)
  (hadoop_flag : bool) : M unit :=
  let hadoop_flag := hadoop_flag || startswith "hdfs" remotepath in
  paths <- lift (_sftp_paths self localpath (PyStr remotepath)) ;;
  remote <-
    (if hadoop_flag then
       fun st =>
         let tmp_path := tmp_path_for (Paths.localpath paths) st in
         (hadoop "get -f" [PyStr remotepath; PyStr tmp_path] default_kwargs ;;
          ret tmp_path) st
     else ret (Paths.remotepath paths)) ;;
  sftp_get_file remote (Paths.localpath paths) ;;
  if hadoop_flag then exec "rm" [PyStr remote] default_kwargs ;; ret tt
  else ret tt.

(** [remotepath.startswith("hdfs")]; on [None] the attribute is missing. *)
Definition startswith_hdfs (remotepath : pyval) : exn + bool :=
  match remotepath with
  | PyNone => inl AttributeError
  | PyStr p => inr (startswith "hdfs" p)
  end.

(** [Issho.put(localpath, remotepath=None, hadoop=False)]. *)
Definition put (self : Session) (localpath : string) (remotepath : pyval)
  (hadoop_flag : bool) : M unit :=
  hadoop_flag <-
    (if hadoop_flag then ret true else lift (startswith_hdfs remotepath)) ;;
  paths <- lift (_sftp_paths self (PyStr localpath) remotepath) ;;
  remote <-
    (if hadoop_flag then fun st => ret (tmp_path_for localpath st) st
     else ret (Paths.remotepath paths)) ;;
  sftp_put_file (Paths.localpath paths) remote ;;
  if hadoop_flag then
    hadoop "put" [PyStr remote; remotepath] default_kwargs ;;
    exec "rm" [PyStr remote] default_kwargs ;;
    ret tt
  else ret tt.

(** [Issho._get_password(pw_type)]. *)
Definition _get_password (self : Session) (pw_type : string) : pyval :=
  keyring_get_password env (issho_pw_name pw_type (profile self))
    (local_user self).

Definition kinit_message : string :=
  "Add your kinit password with `issho config <profile>` "
    ++ "or by editing `~/.issho/config.toml`".

(** [Issho.kinit()]. *)
Definition kinit (self : Session) : M unit :=
  let kinit_pw := _get_password self "kinit" in
  if truthy kinit_pw then
    exec ("echo " ++ str kinit_pw ++ " | kinit") [] default_kwargs ;; ret tt
  else raise (OSError kinit_message).

(** The last step of [Issho.__init__]:
    [self._remote_home_dir = self.get_output("echo $HOME").strip()]. *)
Definition init_remote_home_dir (self : Session) : M Session :=
  home <- get_output "echo $HOME" [] default_kwargs ;;
  ret {| profile := profile self;
         local_user := local_user self;
         _remote_home_dir := strip home |}.

End Methods.

(** ** Job submission *)

(** The shorthand keyword arguments of [spark_submit]. *)
Record Shorthand : Type := {
  master : string;
  jars : string;
  files : string;
  driver_class_path : string;
  application_class : string
}.

(** The names in [locals()] when the merge loop starts, in the order of
    the parameter list. *)
Definition spark_submit_locals : list string :=
  [ "self"; "spark_options"; "master"; "jars"; "files"; "driver_class_path";
    "application_class"; "application"; "application_args" ].

(** The names the merge loop passes over. *)
Definition spark_submit_skipped : list string :=
  [ "spark_options"; "application"; "application_args"; "self"; "bg";
    "debug" ].

Definition clean_keys : dict := [ ("application_class", "class") ].

(** The value of a local that the loop does not pass over. *)
Definition local_value (sh : Shorthand) (k : string) : string :=
  if String.eqb k "master" then master sh
  else if String.eqb k "jars" then jars sh
  else if String.eqb k "files" then files sh
  else if String.eqb k "driver_class_path" then driver_class_path sh
  else if String.eqb k "application_class" then application_class sh
  else EmptyString.

(** [for k, v in locals().items(): ...]. *)
Fixpoint merge_locals (sh : Shorthand) (names : list string)
  (spark_options : dict) : dict :=
  match names with
  | [] => spark_options
  | k :: rest =>
      if existsb (String.eqb k) spark_submit_skipped
      then merge_locals sh rest spark_options
      else
        let clean_k :=
          match dict_get clean_keys k with
          | Some c => c
          | None => k
          end in
        let v := local_value sh k in
        if truthy_str v
        then merge_locals sh rest (dict_set spark_options clean_k v)
        else merge_locals sh rest spark_options
  end.

(** The shorthand fields under the option names they are merged as. *)
Definition shorthand_items (sh : Shorthand) : dict :=
  [ ("master", master sh); ("jars", jars sh); ("files", files sh);
    ("driver_class_path", driver_class_path sh);
    ("class", application_class sh) ].


(** The options mapping after [if not spark_options] and the merge. *)
Definition merged_options (spark_options : option dict) (sh : Shorthand)
  : dict :=
  let spark_options :=
    match spark_options with
    | Some (kv :: rest) => kv :: rest
    | _ => []
    end in
  merge_locals sh spark_submit_locals spark_options.

Section Submission.

Context {H : Helpers} (env : Env).

(** The rendered option string of [spark_submit]. *)
Definition spark_options_str (spark_options : option dict) (sh : Shorthand)
  : string :=
  let cleaned_spark_options :=
    clean_spark_options (merged_options spark_options sh) in
  join " "
    (map (fun kv => fst kv ++ " " ++ snd kv)
       (sorted_by_key cleaned_spark_options)).

(** The command [spark_submit] builds. *)
Definition spark_cmd (spark_options : option dict) (sh : Shorthand)
  (application : pyval) (application_args : string) : string :=
  "spark-submit " ++ spark_options_str spark_options sh ++ " "
    ++ str application ++ " " ++ application_args.

(** [Issho.spark_submit(spark_options, master, ..., application,
    application_args)]. *)
Definition spark_submit (spark_options : option dict) (sh : Shorthand)
  (application : pyval) (application_args : string) : M unit :=
  if truthy application then
    exec env (spark_cmd spark_options sh application application_args)
      [] default_kwargs ;;
    ret tt
  else raise AssertionError.

(** [Issho.spark]: [spark_submit]. *)
Definition spark (spark_options : option dict) (sh : Shorthand)
  (application : pyval) (application_args : string) : M unit :=
  spark_submit spark_options sh application application_args.

End Submission.

(** ** Concrete collaborators for running the model *)

(** A remote host that answers every command with the given streams, and
    a secret store holding [secret] under every key. *)
Definition mock_env (out err : list string) (sftp_ok : bool)
  (secret : pyval) : Env := {|
  exec_command := fun _ _ => Some (out, err);
  sftp_get := fun _ _ _ => ([(10, 10)%N], sftp_ok);
  sftp_put := fun _ _ _ => ([(10, 10)%N], sftp_ok);
  time_time := fun _ => "1572825600.0";
  expanduser := fun p => p;
  naturalsize := fun n => "10 Bytes";
  repr_args := fun _ => "()";
  keyring_get_password := fun _ _ => secret
|}.

(** A remote host whose shell prints the home directory, newline and
    all, as [echo] does. *)
Definition echo_env : Env :=
  mock_env ["/home/alice" ++ newline] [] true PyNone.

Definition empty_state : State :=
  {| stdout := []; stderr := []; trace := [] |}.

Definition dev_session : Session :=
  {| profile := "dev"; local_user := "alice";
     _remote_home_dir := "/home/alice" |}.

Definition no_shorthand : Shorthand :=
  {| master := EmptyString; jars := EmptyString; files := EmptyString;
     driver_class_path := EmptyString; application_class := EmptyString |}.

(** ** The rest of the session *)

Section Bootstrap.

Context {H : Helpers} (env : Env).

(** [Issho.__init__] once the connection is open:
    [if kinit: self.kinit()], then the home directory is asked for and
    cached. *)
Definition init_after_connect (self : Session) (do_kinit : bool)
  : M Session :=
  (if do_kinit then kinit env self else ret tt) ;;
  init_remote_home_dir env self.

End Bootstrap.

(** ** Query submission *)

(** [s.endswith(suffix)]. *)
Fixpoint endswith (suffix s : string) : bool :=
  String.eqb s suffix
  || match s with
     | EmptyString => false
     | String _ rest => endswith suffix rest
     end.

(** What [hive] does on the local disk before anything is sent. *)
Inductive LocalOp : Type :=
| CopyFile (src dst : string)
| WriteFile (path content : string).

(** The settings [hive] reads from [self.issho_conf]. *)
Record HiveConf : Type := {
  HIVE_OPTS : string;
  HIVE_JDBC : string
}.

(** ["/tmp/issho_{}.sql".format(time.time())]. *)
Definition hive_tmp_filename (env : Env) (st : State) : string :=
  "/tmp/issho_" ++ time_time env (trace st) ++ ".sql".

(** The branch on the query: a name ending in [sql] or [hql] is copied
    with [copyfile], any other text is written to the temporary file. *)
Definition hive_stage_query (query tmp_filename : string) : LocalOp :=
  if endswith "sql" query || endswith "hql" query
  then CopyFile query tmp_filename
  else WriteFile tmp_filename query.

(** [hive_cmd_template.format(...)]; the template is
    [beeline {opts} -u  "{jdbc}" -f {fn} {remove_first_line}
    {redirect_to_tmp_fn}]. *)
Definition hive_cmd (conf : HiveConf) (tmp_filename : string)
  (output_filename : pyval) (remove_blank_top_line : bool) : string :=
  let tmp_output_filename := tmp_filename ++ ".output" in
  "beeline " ++ HIVE_OPTS conf ++ " -u  " ++ dquote ++ HIVE_JDBC conf
    ++ dquote ++ " -f " ++ tmp_filename ++ " "
    ++ (if remove_blank_top_line then "| sed 1d" else EmptyString) ++ " "
    ++ (if truthy output_filename then "> " ++ tmp_output_filename
        else EmptyString).

Section Query.

Context {H : Helpers} (env : Env).

(** [Issho.hive(query, output_filename=None,
    remove_blank_top_line=True)]. [local op] tells whether the local file
    operation [op] succeeds; when it does not, its [OSError] ends the
    call. *)
Definition hive (local : LocalOp -> bool) (conf : HiveConf) (self : Session)
  (query : string) (output_filename : pyval) (remove_blank_top_line : bool)
  : M unit :=
  fun st =>
    let tmp_filename := hive_tmp_filename env st in
    if local (hive_stage_query query tmp_filename) then
      (put env self tmp_filename (PyStr tmp_filename) false ;;
       exec env
         (hive_cmd conf tmp_filename output_filename remove_blank_top_line)
         [] default_kwargs ;;
       if truthy output_filename
       then get env self (tmp_filename ++ ".output") output_filename false
       else ret tt) st
    else (inl IOError, st).

End Query.

(** ** The setup dialogue of [cli.py] *)

(** The dialogue ends with [EOFError] when the input runs out. *)
Inductive cli_exn : Type :=
| EOFError.

(** What the dialogue has done so far: the prompts shown, the lines
    printed, the [keyring.set_password(service, username, password)]
    calls and the [write_issho_conf] calls. *)
Record Cli : Type := {
  prompted : list string;
  printed : list string;
  stored : list (string * pyval * string);
  written : list (string * dict)
}.

Definition empty_cli : Cli :=
  {| prompted := []; printed := []; stored := []; written := [] |}.

(** Showing a prompt. *)
Definition ask (message : string) (c : Cli) : Cli :=
  {| prompted := prompted c ++ [message]; printed := printed c;
     stored := stored c; written := written c |}.

(** [print(line)]. *)
Definition cli_print (line : string) (c : Cli) : Cli :=
  {| prompted := prompted c; printed := printed c ++ [line ++ newline];
     stored := stored c; written := written c |}.

(** [keyring.set_password(service, username, password)]. *)
Definition set_password (service : string) (username : pyval)
  (password : string) (c : Cli) : Cli :=
  {| prompted := prompted c; printed := printed c;
     stored := stored c ++ [(service, username, password)];
     written := written c |}.

(** [write_issho_conf({profile: new_conf})]. *)
Definition write_issho_conf (profile : string) (new_conf : dict) (c : Cli)
  : Cli :=
  {| prompted := prompted c; printed := printed c; stored := stored c;
     written := written c ++ [(profile, new_conf)] |}.

(** The [while True] loop of [main] over the answers still to come;
    [user] is [os.environ.get('USER')]. It returns the answers left. *)
Fixpoint password_loop (profile : string) (user : pyval)
  (answers : list string) (c : Cli) : (cli_exn + list string) * Cli :=
  let c := ask "Enter the profile's kinit password: " c in
  match answers with
  | [] => (inl EOFError, c)
  | pw :: rest =>
      if negb (truthy_str pw) then (inr rest, c)
      else
        let c := ask "Enter the kinit password again: " c in
        match rest with
        | [] => (inl EOFError, c)
        | pw2 :: rest' =>
            if negb (String.eqb pw pw2)
            then password_loop profile user rest'
                   (cli_print "passwords do not match" c)
            else (inr rest', set_password (profile ++ "_kinit") user pw c)
        end
  end.

(** [prompt(message)]: the next answer, or [EOFError] at the end of the
    input. *)
Definition prompt (message : string) (answers : list string) (c : Cli)
  : (cli_exn + string * list string) * Cli :=
  let c := ask message c in
  match answers with
  | [] => (inl EOFError, c)
  | answer :: rest => (inr (answer, rest), c)
  end.

(** [cli.main()], reading its answers from [answers]. *)
Definition main (user : pyval) (answers : list string) (c : Cli)
  : (cli_exn + unit) * Cli :=
  match prompt "What is the name of the profile? " answers c with
  | (inl e, c) => (inl e, c)
  | (inr (profile, answers), c) =>
  match password_loop profile user answers c with
  | (inl e, c) => (inl e, c)
  | (inr answers, c) =>
  match prompt "Hive Options: " answers c with
  | (inl e, c) => (inl e, c)
  | (inr (hive_opts, answers), c) =>
  match prompt "Hive JDBC connection string: " answers c with
  | (inl e, c) => (inl e, c)
  | (inr (hive_jdbc, answers), c) =>
  match prompt "Spark Shell Configuration String: " answers c with
  | (inl e, c) => (inl e, c)
  | (inr (spark_shell_conf, answers), c) =>
      let new_conf :=
        [ ("HIVE_OPTS", hive_opts); ("HIVE_JDBC", hive_jdbc);
          ("SPARK_CONF", spark_shell_conf) ] in
      (inr tt, write_issho_conf profile new_conf c)
  end end end end end.

Definition pyval_eqb (a b : pyval) : bool :=
  match a, b with
  | PyNone, PyNone => true
  | PyStr x, PyStr y => String.eqb x y
  | _, _ => false
  end.

(** [keyring.get_password(service, username)] over the calls made to
    [set_password]: the latest secret stored under the pair, if any. *)
Fixpoint keyring_lookup (calls : list (string * pyval * string))
  (service : string) (username : pyval) : pyval :=
  match calls with
  | [] => PyNone
  | (s, u, password) :: rest =>
      match keyring_lookup rest service username with
      | PyStr later => PyStr later
      | PyNone =>
          if String.eqb s service && pyval_eqb u username
          then PyStr password else PyNone
      end
  end.

(** What a dialogue adds, after what was there. *)
Definition cli_app (c d : Cli) : Cli :=
  {| prompted := prompted c ++ prompted d;
     printed := printed c ++ printed d;
     stored := stored c ++ stored d;
     written := written c ++ written d |}.

(** A world whose secret store holds what the given [set_password]
    calls put there; the remote host answers every command with empty
    streams. *)
Definition keyring_env (calls : list (string * pyval * string)) : Env := {|
  exec_command := fun _ _ => Some ([], []);
  sftp_get := fun _ _ _ => ([], true);
  sftp_put := fun _ _ _ => ([], true);
  time_time := fun _ => "1572825600.0";
  expanduser := fun p => p;
  naturalsize := fun n => "0 Bytes";
  repr_args := fun _ => "()";
  keyring_get_password :=
    fun service username => keyring_lookup calls service (PyStr username)
|}.

Definition beeline_conf : HiveConf :=
  {| HIVE_OPTS := "--silent=true"; HIVE_JDBC := "jdbc:hive2://hs2:10000" |}.

(** * Properties *)

(** ** Strings *)

Lemma append_assoc (a b c : string) : (a ++ b) ++ c = a ++ (b ++ c).
Proof.
  induction a as [|x a IH]; simpl; [reflexivity | now rewrite IH].
Qed.

Lemma append_empty_r (a : string) : a ++ EmptyString = a.
Proof.
  induction a as [|x a IH]; simpl; [reflexivity | now rewrite IH].
Qed.

Lemma join_empty_cons (line : string) (lines : list string) :
  join EmptyString (line :: lines) = line ++ join EmptyString lines.
Proof.
  unfold join. destruct lines as [|l2 lines]; simpl.
  - now rewrite append_empty_r.
  - reflexivity.
Qed.

Lemma lstrip_dashes_dash (s : string) :
  lstrip_dashes (String "-"%char s) = lstrip_dashes s.
Proof. reflexivity. Qed.

Lemma lstrip_dashes_no_dash (s : string) :
  startswith "-" (lstrip_dashes s) = false.
Proof.
  induction s as [|c s IH]; [reflexivity|].
  destruct c as [[] [] [] [] [] [] [] []]; try reflexivity; exact IH.
Qed.

Lemma lstrip_dashes_prefix (s : string) :
  exists n, s = string_of_list_ascii (repeat "-"%char n) ++ lstrip_dashes s.
Proof.
  induction s as [|c s [n IH]].
  - now exists 0.
  - destruct c as [[] [] [] [] [] [] [] []];
      try (exists 0; reflexivity).
    exists (S n). simpl. now rewrite <- IH.
Qed.

(** ** The command dispatcher *)

Section Dispatcher.

Context {H : Helpers} (env : Env).

Lemma read_stdout_spec (capture : bool) (lines : list string) :
  forall (acc : string) (st : State),
    read_stdout capture lines acc st =
    (inr (if capture then acc ++ join EmptyString lines else acc),
     {| stdout := stdout st ++ (if capture then [] else lines);
        stderr := stderr st;
        trace := trace st |}).
Proof.
  induction lines as [|line lines IH]; intros acc [o e t];
    cbn [read_stdout].
  - destruct capture; cbn; unfold ret;
      now rewrite ?append_empty_r, ?app_nil_r.
  - destruct capture.
    + rewrite IH, join_empty_cons, append_assoc. reflexivity.
    + unfold bind, print. rewrite IH. cbn.
      now rewrite <- app_assoc.
Qed.

Lemma read_stderr_spec (lines : list string) :
  forall st : State,
    read_stderr lines st =
    (inr tt,
     {| stdout := stdout st;
        stderr := stderr st ++ lines;
        trace := trace st |}).
Proof.
  induction lines as [|line lines IH]; intros [o e t]; simpl.
  - unfold ret. now rewrite app_nil_r.
  - unfold bind, stderr_write. simpl. rewrite IH. simpl.
    now rewrite <- app_assoc.
Qed.

Lemma exec_spec (cmd : string) (args : list pyval) (kw : Kwargs)
  (st : State) :
  exec env cmd args kw st =
  let line := command_line cmd args kw in
  let sent := (trace st ++ [ExecCommand line])%list in
  match exec_command env (trace st) line with
  | None =>
      (inl SSHException,
       {| stdout := stdout st ++ debug_output env cmd args kw;
          stderr := stderr st;
          trace := sent |})
  | Some (out, err) =>
      (inr (if capture_output kw then join EmptyString out else EmptyString),
       {| stdout := stdout st ++ debug_output env cmd args kw
                      ++ (if capture_output kw then [] else out);
          stderr := stderr st ++ err;
          trace := sent |})
  end.
Proof.
  destruct st as [o e t]. unfold exec, debug_output.
  destruct (debug kw); unfold bind, print, ret, ssh_exec_command, log; simpl;
    destruct (exec_command env t (command_line cmd args kw))
      as [[out err]|]; simpl;
    rewrite ?read_stdout_spec; simpl; rewrite ?read_stderr_spec; simpl;
    rewrite ?app_nil_r, <- ?app_assoc; reflexivity.
Qed.

End Dispatcher.

Lemma startswith_append (p s : string) : startswith p (p ++ s) = true.
Proof.
  unfold startswith. induction p as [|a p IH]; simpl.
  - now destruct s.
  - destruct (ascii_dec a a) as [_|Hne]; [exact IH | now elim Hne].
Qed.

Lemma replace_char_single (c d : ascii) (s : string) :
  list_ascii_of_string (replace_char c (String d EmptyString) s) =
  map (fun a => if Ascii.eqb a c then d else a) (list_ascii_of_string s).
Proof.
  induction s as [|a s IH]; [reflexivity|].
  simpl. destruct (Ascii.eqb a c); simpl; now rewrite IH.
Qed.

Section Session_claims.

Context {H : Helpers} (env : Env).

Lemma report_progress_spec (reports : list (N * N)) :
  forall st : State,
    report_progress env reports st =
    (inr tt,
     {| stdout :=
          stdout st
            ++ map (fun r =>
                      naturalsize env (fst r)
                        ++ " transferred out of a total of "
                        ++ naturalsize env (snd r) ++ newline) reports;
        stderr := stderr st;
        trace := trace st |}).
Proof.
  induction reports as [|r reports IH]; intros [o e t]; cbn.
  - unfold ret. now rewrite app_nil_r.
  - unfold bind, _sftp_progress, print. rewrite IH. cbn.
    now rewrite <- app_assoc.
Qed.

Lemma exec_trace (cmd : string) (args : list pyval) (kw : Kwargs)
  (st : State) :
  trace (snd (exec env cmd args kw st)) =
  (trace st ++ [ExecCommand (command_line cmd args kw)])%list.
Proof.
  rewrite exec_spec. cbv zeta.
  destruct (exec_command env (trace st) (command_line cmd args kw))
    as [[out err]|]; reflexivity.
Qed.

(** C4: in every mode of [exec], when the remote host answers with its
    two streams, every line of the remote standard error is written, in
    order, to the caller's error channel, and the returned string is
    built from the standard output alone: the concatenation of its lines
    in captured mode, the empty string otherwise. *)
Theorem exec_drains_stderr (cmd : string) (args : list pyval) (kw : Kwargs)
  (st : State) (out err : list string) :
  exec_command env (trace st) (command_line cmd args kw) = Some (out, err) ->
  stderr (snd (exec env cmd args kw st)) = (stderr st ++ err)%list /\
  fst (exec env cmd args kw st) =
    inr (if capture_output kw then join EmptyString out else EmptyString) /\
  stdout (snd (exec env cmd args kw st)) =
    (stdout st ++ debug_output env cmd args kw
       ++ (if capture_output kw then [] else out))%list.
Proof.
  intros Hans. rewrite exec_spec. cbv zeta. rewrite Hans. cbn.
  repeat split.
Qed.

(** C3, as amended: [get_output] returns exactly the concatenation of
    the lines the remote standard output delivered; nothing is stripped,
    so a trailing newline stays in the result. *)
Theorem get_output_returns_stdout (cmd : string) (args : list pyval)
  (kw : Kwargs) (st : State) (out err : list string) :
  exec_command env (trace st) (command_line cmd args kw) = Some (out, err) ->
  fst (get_output env cmd args kw st) = inr (join EmptyString out).
Proof.
  intros Hans. unfold get_output. rewrite exec_spec. cbv zeta.
  change (command_line cmd args
            {| bg := bg kw; debug := debug kw; capture_output := true |})
    with (command_line cmd args kw).
  rewrite Hans. reflexivity.
Qed.

(** The bootstrap is where the whitespace goes: the cached home
    directory is the stripped output of [echo $HOME]. *)
Lemma init_remote_home_dir_strips (self : Session) (st : State)
  (out err : list string) :
  exec_command env (trace st)
    (command_line "echo $HOME" [] default_kwargs) = Some (out, err) ->
  fst (init_remote_home_dir env self st) =
  inr {| profile := profile self;
         local_user := local_user self;
         _remote_home_dir := strip (join EmptyString out) |}.
Proof.
  intros Hans. unfold init_remote_home_dir, get_output, bind.
  rewrite exec_spec. cbv zeta.
  change (command_line "echo $HOME" []
            {| bg := bg default_kwargs; debug := debug default_kwargs;
               capture_output := true |})
    with (command_line "echo $HOME" [] default_kwargs).
  rewrite Hans. reflexivity.
Qed.

(** C8: a name that the session does not define resolves through
    [__getattr__], and calling the result runs [exec] with the verb
    obtained from the name by turning every underscore into a space,
    followed by the arguments as given. *)
Theorem dynamic_method_is_exec (name : string) (args : list pyval)
  (kw : Kwargs) (st : State) :
  ~ In name issho_attributes ->
  let verb := replace_char "_"%char " " name in
  list_ascii_of_string verb =
    map (fun a => if Ascii.eqb a "_"%char then " "%char else a)
      (list_ascii_of_string name) /\
  exists f,
    dynamic_method env name = Some f /\
    f args kw st = exec env verb args kw st /\
    trace (snd (f args kw st)) =
      (trace st ++ [ExecCommand (command_line verb args kw)])%list.
Proof.
  intros Hnot verb. split.
  - apply replace_char_single.
  - exists (getattr_ env name). repeat split.
    + unfold dynamic_method.
      destruct (existsb (String.eqb name) issho_attributes) eqn:E;
        [|reflexivity].
      apply existsb_exists in E. destruct E as [x [Hin Heq]].
      apply String.eqb_eq in Heq. subst x. contradiction.
    + unfold getattr_. apply exec_trace.
Qed.

(** C10: [hadoop] removes the whole leading run of dashes from the
    subcommand and puts one dash in front, then runs it under
    [hadoop fs]; so [get], [-get] and [--get] send the same command,
    which, built as the spec describes the command helper, begins with
    [hadoop fs -get]. *)
Theorem hadoop_single_dash (command : string) (args : list pyval)
  (kw : Kwargs) (st : State) :
  hadoop env command args kw st =
    exec env "hadoop fs" (PyStr ("-" ++ lstrip_dashes command) :: args) kw st /\
  startswith "-" (lstrip_dashes command) = false /\
  (exists n,
     command = string_of_list_ascii (repeat "-"%char n)
                 ++ lstrip_dashes command) /\
  hadoop env "get" args kw st = hadoop env "-get" args kw st /\
  hadoop env "-get" args kw st = hadoop env "--get" args kw st /\
  trace (snd (hadoop env "get" args kw st)) =
    (trace st
       ++ [ExecCommand (command_line "hadoop fs" (PyStr "-get" :: args) kw)])%list /\
  startswith "hadoop fs -get"
    (command_line (H := spec_helpers) "hadoop fs" (PyStr "-get" :: args)
       default_kwargs) = true.
Proof.
  repeat split.
  - apply lstrip_dashes_no_dash.
  - apply lstrip_dashes_prefix.
  - unfold hadoop. cbn [lstrip_dashes append]. apply exec_trace.
  - destruct args; reflexivity.
Qed.

(** C1: a job submission whose application reference is [None] or the
    empty string fails on the assertion, and leaves the state as it was:
    nothing is sent over the connection. *)
Theorem spark_submit_requires_application (spark_options : option dict)
  (sh : Shorthand) (application : pyval) (application_args : string)
  (st : State) :
  application = PyNone \/ application = PyStr EmptyString ->
  spark_submit env spark_options sh application application_args st =
    (inl AssertionError, st) /\
  trace (snd (spark_submit env spark_options sh application
                application_args st)) = trace st.
Proof.
  intros [-> | ->]; split; reflexivity.
Qed.

(** C9, as amended: [kinit] looks the secret up under the key of
    (kinit, profile) for the local user; with no secret, or with an
    empty one, it fails with the [OSError] that points at
    [issho config]; with a non-empty secret it runs
    [echo <secret> | kinit] on the remote host. *)
Theorem kinit_spec (self : Session) (st : State) :
  _get_password env self "kinit" =
    keyring_get_password env (issho_pw_name "kinit" (profile self))
      (local_user self) /\
  match _get_password env self "kinit" with
  | PyNone | PyStr EmptyString =>
      kinit env self st = (inl (OSError kinit_message), st)
  | PyStr pw =>
      kinit env self st =
        (exec env ("echo " ++ pw ++ " | kinit") [] default_kwargs ;; ret tt)
          st /\
      trace (snd (kinit env self st)) =
        (trace st
           ++ [ExecCommand
                 (add_arguments_to_cmd ("echo " ++ pw ++ " | kinit") [])])%list
  end.
Proof.
  split; [reflexivity|].
  unfold kinit.
  destruct (_get_password env self "kinit") as [|[|c pw]]; cbn;
    try reflexivity.
  split; [reflexivity|].
  unfold bind.
  pose proof (exec_trace (String "e" (String "c" (String "h" (String "o"
    (String " " (String c (pw ++ " | kinit"))))))) [] default_kwargs st)
    as Ht.
  destruct (exec env _ [] default_kwargs st) as [[e|a] st']; exact Ht.
Qed.

(** C2: [put] with the remote path left out and no staging asked for
    stops at [remotepath.startswith] on [None], before any path is
    resolved and before any transfer. *)
Theorem put_without_remotepath_fails (self : Session) (localpath : string)
  (st : State) :
  put env self localpath PyNone false st = (inl AttributeError, st).
Proof. reflexivity. Qed.

(** C5: a [get] that stages through the distributed filesystem sends the
    bridge command for a temporary path under [/tmp], then transfers that
    path, then removes it; a step is reached only if the one before it
    succeeded, so a failed transfer leaves the removal out. *)
Theorem get_staged_order (self : Session) (remotepath : string)
  (localpath : pyval) (hadoop_flag : bool) (st : State) (paths : Paths.t) :
  hadoop_flag || startswith "hdfs" remotepath = true ->
  _sftp_paths env self localpath (PyStr remotepath) = inr paths ->
  let local := Paths.localpath paths in
  let tmp := tmp_path_for env local st in
  let bridge :=
    add_arguments_to_cmd "hadoop fs"
      [PyStr "-get -f"; PyStr remotepath; PyStr tmp] in
  let cleanup := add_arguments_to_cmd "rm" [PyStr tmp] in
  let result := get env self remotepath localpath hadoop_flag st in
  startswith "/tmp/" tmp = true /\
  trace (snd result) =
    (trace st ++
     match exec_command env (trace st) bridge with
     | None => [ExecCommand bridge]
     | Some _ =>
         if snd (sftp_get env (trace st ++ [ExecCommand bridge]) tmp local)
         then [ExecCommand bridge; SftpGet tmp local; ExecCommand cleanup]
         else [ExecCommand bridge; SftpGet tmp local]
     end)%list /\
  (exec_command env (trace st) bridge <> None ->
   snd (sftp_get env (trace st ++ [ExecCommand bridge]) tmp local) = false ->
   fst result = inl IOError).
Proof.
  intros Hflag Hpaths local tmp bridge cleanup result.
  split; [apply startswith_append|].
  assert (Hbridge :
    command_line "hadoop fs"
      [PyStr ("-" ++ lstrip_dashes "get -f"); PyStr remotepath; PyStr tmp]
      default_kwargs = bridge) by reflexivity.
  assert (Hcleanup :
    command_line "rm" [PyStr tmp] default_kwargs = cleanup) by reflexivity.
  subst result. unfold get. rewrite Hflag. cbv [bind lift].
  rewrite Hpaths. cbv [hadoop]. rewrite exec_spec. cbv zeta.
  fold local. fold tmp. rewrite Hbridge.
  destruct (exec_command env (trace st) bridge) as [[out err]|].
  - cbv [ret sftp_get_file bind log]. cbn [trace fst snd].
    rewrite report_progress_spec. cbn [trace stdout stderr].
    destruct (snd (sftp_get env (trace st ++ [ExecCommand bridge]) tmp local)).
    + rewrite exec_spec. cbv zeta. cbn [trace]. rewrite Hcleanup.
      split; [|discriminate].
      destruct (exec_command env _ cleanup) as [[out' err']|];
        cbn; now rewrite <- !app_assoc.
    + cbv [raise]. cbn. split; [now rewrite <- app_assoc | reflexivity].
  - cbn. split; [reflexivity | congruence].
Qed.

End Session_claims.

(** ** Dictionaries and sorted rendering *)










Lemma dict_get_set_other (d : dict) (k v k0 : string) :
  k <> k0 -> dict_get (dict_set d k v) k0 = dict_get d k0.
Proof.
  intros Hne. induction d as [|[k' v'] d IH]; simpl.
  - apply String.eqb_neq in Hne. now rewrite Hne.
  - destruct (String.eqb k' k) eqn:E; simpl.
    + apply String.eqb_eq in E. subst k'.
      apply String.eqb_neq in Hne. now rewrite Hne.
    + now rewrite IH.
Qed.






(** The merge loop, item by item. *)
Lemma merged_options_fold (spark_options : option dict) (sh : Shorthand) :
  merged_options spark_options sh =
  fold_left
    (fun d kv =>
       if truthy_str (snd kv) then dict_set d (fst kv) (snd kv) else d)
    (shorthand_items sh)
    match spark_options with
    | Some (kv :: rest) => kv :: rest
    | _ => []
    end.
Proof.
  unfold merged_options, shorthand_items. cbn.
  destruct (truthy_str (master sh)), (truthy_str (jars sh)),
    (truthy_str (files sh)), (truthy_str (driver_class_path sh)),
    (truthy_str (application_class sh)); reflexivity.
Qed.

Lemma fold_set_other (items : dict) (k : string) :
  forall d : dict,
    ~ In k (keys items) ->
    dict_get
      (fold_left
         (fun d kv =>
            if truthy_str (snd kv) then dict_set d (fst kv) (snd kv) else d)
         items d) k = dict_get d k.
Proof.
  induction items as [|[k' v'] items IH]; intros d Hnotin; simpl.
  - reflexivity.
  - rewrite IH by (intros Hin; apply Hnotin; now right).
    destruct (truthy_str v'); [|reflexivity].
    apply dict_get_set_other. intros E. apply Hnotin. now left.
Qed.







(** ** Job submission *)


(** ** Path resolution *)

(** C7: on the remote path [/data/notes.txt~] the marker at the end is
    replaced as well: the resolved remote path is [/data/notes.txt]
    followed by the cached home directory. *)
Theorem sftp_paths_replaces_every_marker (env : Env) (self : Session) :
  _sftp_paths (H := spec_helpers) env self PyNone (PyStr "/data/notes.txt~") =
  inr {| Paths.localpath := expanduser env "notes.txt~";
         Paths.remotepath := "/data/notes.txt" ++ _remote_home_dir self |}.
Proof.
  unfold _sftp_paths. cbn. now rewrite append_empty_r.
Qed.

(** A leading marker is replaced by the home directory. *)
Lemma sftp_paths_leading_marker (env : Env) (self : Session) :
  _sftp_paths (H := spec_helpers) env self PyNone (PyStr "~/data/x.csv") =
  inr {| Paths.localpath := expanduser env "x.csv";
         Paths.remotepath := _remote_home_dir self ++ "/data/x.csv" |}.
Proof. reflexivity. Qed.

(** With both helpers as the spec describes them, the side left out is
    the last segment of the side given. *)
Lemma sftp_paths_defaults (env : Env) (self : Session) :
  _sftp_paths (H := spec_helpers) env self PyNone (PyStr "/data/x.csv") =
    inr {| Paths.localpath := expanduser env "x.csv";
           Paths.remotepath := "/data/x.csv" |} /\
  _sftp_paths (H := spec_helpers) env self (PyStr "a/b.txt") PyNone =
    inr {| Paths.localpath := expanduser env "a/b.txt";
           Paths.remotepath := "b.txt" |}.
Proof. split; reflexivity. Qed.

(** ** Runs of the model *)

Example exec_ls_la :
  exec (H := spec_helpers) echo_env "ls" [PyStr "-la"; PyStr "/tmp"]
    default_kwargs empty_state =
  (inr EmptyString,
   {| stdout := ["/home/alice" ++ newline];
      stderr := [];
      trace := [ExecCommand "ls -la /tmp"] |}).
Proof. reflexivity. Qed.

Example dynamic_ls_la :
  option_map (fun f => trace (snd (f [PyStr "-la"] default_kwargs empty_state)))
    (dynamic_method (H := spec_helpers) echo_env "ls") =
  Some [ExecCommand "ls -la"].
Proof. reflexivity. Qed.

Example dynamic_docker_ps :
  option_map (fun f => trace (snd (f [PyStr "-a"] default_kwargs empty_state)))
    (dynamic_method (H := spec_helpers) echo_env "docker_ps") =
  Some [ExecCommand "docker ps -a"].
Proof. reflexivity. Qed.

Example hadoop_get_three_ways :
  map (fun c =>
         trace (snd (hadoop (H := spec_helpers) echo_env c [PyStr "/x"]
                       default_kwargs empty_state)))
    ["get"; "-get"; "--get"] =
  [ [ExecCommand "hadoop fs -get /x"];
    [ExecCommand "hadoop fs -get /x"];
    [ExecCommand "hadoop fs -get /x"] ].
Proof. reflexivity. Qed.

Example hadoop_command_starts_with (args : list pyval) :
  startswith "hadoop fs -get"
    (command_line (H := spec_helpers) "hadoop fs" (PyStr "-get" :: args)
       default_kwargs) = true.
Proof. destruct args; reflexivity. Qed.

Example spark_submit_renders_sorted :
  spark_cmd (H := spec_helpers) None
    {| master := "m1"; jars := "j1"; files := EmptyString;
       driver_class_path := EmptyString; application_class := "Main" |}
    (PyStr "app.jar") "10" =
  "spark-submit --class Main --jars j1 --master m1 app.jar 10".
Proof. reflexivity. Qed.

Example put_staged_without_remotepath :
  trace (snd (put (H := spec_helpers) echo_env dev_session "a/b.txt" PyNone
                true empty_state)) =
  [ SftpPut "a/b.txt" "/tmp/a_b.txt_1572825600.0";
    ExecCommand "hadoop fs -put /tmp/a_b.txt_1572825600.0 None";
    ExecCommand "rm /tmp/a_b.txt_1572825600.0" ].
Proof. reflexivity. Qed.

Example init_remote_home_dir_run :
  fst (init_remote_home_dir (H := spec_helpers) echo_env dev_session
         empty_state) =
  inr {| profile := "dev"; local_user := "alice";
         _remote_home_dir := "/home/alice" |}.
Proof. reflexivity. Qed.

(** ** Counterexamples to claims as stated *)

(** C3 as stated fails: over a host that echoes the home directory with
    its newline, [get_output] returns the newline too, which is not the
    echoed string with trailing whitespace stripped. *)
Lemma get_output_keeps_trailing_newline :
  fst (get_output (H := spec_helpers) echo_env "echo $HOME" []
         default_kwargs empty_state) = inr ("/home/alice" ++ newline) /\
  fst (get_output (H := spec_helpers) echo_env "echo $HOME" []
         default_kwargs empty_state) <>
    inr (rstrip ("/home/alice" ++ newline)).
Proof.
  split; [reflexivity|]. cbv. discriminate.
Qed.

(** C9 as stated fails: with an empty secret stored, the lookup returns
    a secret, and [kinit] still fails without running the remote
    command. *)
Lemma kinit_empty_secret_fails :
  _get_password (H := spec_helpers)
    (mock_env [] [] true (PyStr EmptyString)) dev_session "kinit" =
    PyStr EmptyString /\
  kinit (H := spec_helpers) (mock_env [] [] true (PyStr EmptyString))
    dev_session empty_state =
    (inl (OSError kinit_message), empty_state).
Proof. split; reflexivity. Qed.

(** ** Witnesses *)

Lemma exec_drains_stderr_witness :
  stderr (snd (exec (H := spec_helpers)
                 (mock_env ["out" ++ newline] ["warn" ++ newline] true PyNone)
                 "ls" [PyStr "-la"]
                 {| bg := true; debug := false; capture_output := true |}
                 empty_state)) = ["warn" ++ newline] /\
  fst (exec (H := spec_helpers)
         (mock_env ["out" ++ newline] ["warn" ++ newline] true PyNone)
         "ls" [PyStr "-la"]
         {| bg := true; debug := false; capture_output := true |}
         empty_state) = inr ("out" ++ newline).
Proof.
  destruct (exec_drains_stderr (H := spec_helpers)
              (mock_env ["out" ++ newline] ["warn" ++ newline] true PyNone)
              "ls" [PyStr "-la"]
              {| bg := true; debug := false; capture_output := true |}
              empty_state ["out" ++ newline] ["warn" ++ newline] eq_refl)
    as [Herr [Hres _]].
  split; [exact Herr | exact Hres].
Defined.

Lemma get_output_returns_stdout_witness :
  fst (get_output (H := spec_helpers) echo_env "echo $HOME" []
         default_kwargs empty_state) = inr ("/home/alice" ++ newline).
Proof.
  apply (get_output_returns_stdout (H := spec_helpers) echo_env "echo $HOME"
           [] default_kwargs empty_state ["/home/alice" ++ newline] []).
  reflexivity.
Defined.

Lemma dynamic_method_is_exec_witness :
  exists f,
    dynamic_method (H := spec_helpers) echo_env "docker_ps" = Some f /\
    f [PyStr "-a"] default_kwargs empty_state =
      exec (H := spec_helpers) echo_env "docker ps" [PyStr "-a"]
        default_kwargs empty_state /\
    trace (snd (f [PyStr "-a"] default_kwargs empty_state)) =
      [ExecCommand "docker ps -a"].
Proof.
  apply (dynamic_method_is_exec (H := spec_helpers) echo_env "docker_ps"
           [PyStr "-a"] default_kwargs empty_state).
  simpl. intuition discriminate.
Defined.

Lemma spark_submit_requires_application_witness :
  spark_submit (H := spec_helpers) echo_env None no_shorthand
    (PyStr EmptyString) EmptyString empty_state =
    (inl AssertionError, empty_state) /\
  trace (snd (spark_submit (H := spec_helpers) echo_env None no_shorthand
                (PyStr EmptyString) EmptyString empty_state)) = [].
Proof.
  apply (spark_submit_requires_application (H := spec_helpers) echo_env None
           no_shorthand (PyStr EmptyString) EmptyString empty_state).
  right. reflexivity.
Defined.

Lemma get_staged_order_witness :
  trace (snd (get (H := spec_helpers) (mock_env [] [] false PyNone)
                dev_session "hdfs://nn/data/y.csv" PyNone false
                empty_state)) =
  [ ExecCommand
      "hadoop fs -get -f hdfs://nn/data/y.csv /tmp/y.csv_1572825600.0";
    SftpGet "/tmp/y.csv_1572825600.0" "y.csv" ] /\
  fst (get (H := spec_helpers) (mock_env [] [] false PyNone)
         dev_session "hdfs://nn/data/y.csv" PyNone false empty_state) =
  inl IOError.
Proof.
  destruct (get_staged_order (H := spec_helpers)
              (mock_env [] [] false PyNone) dev_session
              "hdfs://nn/data/y.csv" PyNone false empty_state
              {| Paths.localpath := "y.csv";
                 Paths.remotepath := "hdfs://nn/data/y.csv" |}
              eq_refl eq_refl) as [_ [Htrace Hfail]].
  split.
  - exact Htrace.
  - apply Hfail; [discriminate | reflexivity].
Defined.


(** * Further properties of the session *)

(** ** The dispatcher *)

Lemma list_ascii_of_string_app (a b : string) :
  list_ascii_of_string (a ++ b) =
  (list_ascii_of_string a ++ list_ascii_of_string b)%list.
Proof.
  induction a as [|x a IH]; simpl; [reflexivity | now rewrite IH].
Qed.

Lemma append_cancel_r (a b s : string) : a ++ s = b ++ s -> a = b.
Proof.
  intros E.
  apply (f_equal list_ascii_of_string) in E.
  rewrite !list_ascii_of_string_app in E.
  apply app_inv_tail in E.
  rewrite <- (string_of_list_ascii_of_string a),
          <- (string_of_list_ascii_of_string b).
  now rewrite E.
Qed.

Lemma append_cancel_l (p a b : string) : p ++ a = p ++ b -> a = b.
Proof.
  induction p as [|x p IH]; simpl; intros E; [exact E|].
  inversion E. now apply IH.
Qed.

(** The escaped form of a command never begins with a double quote. *)
Lemma escape_head (s rest : string) :
  replace_char "034"%char (backslash ++ dquote) s <>
  String "034"%char rest.
Proof.
  destruct s as [|a s]; simpl; [discriminate|].
  destruct (Ascii.eqb_spec a "034"%char) as [->|Hne]; simpl.
  - discriminate.
  - intros E. inversion E. contradiction.
Qed.

Lemma escape_injective (s1 : string) :
  forall s2 : string,
    replace_char "034"%char (backslash ++ dquote) s1 =
    replace_char "034"%char (backslash ++ dquote) s2 ->
    s1 = s2.
Proof.
  induction s1 as [|a1 s1 IH]; intros [|a2 s2]; simpl.
  - reflexivity.
  - destruct (Ascii.eqb a2 "034"%char); discriminate.
  - destruct (Ascii.eqb a1 "034"%char); discriminate.
  - destruct (Ascii.eqb_spec a1 "034"%char) as [->|H1];
      destruct (Ascii.eqb_spec a2 "034"%char) as [->|H2]; simpl; intros E.
    + inversion E as [E']. f_equal. now apply IH.
    + inversion E as [[Ea E']]. symmetry in E'.
      now apply escape_head in E'.
    + inversion E as [[Ea E']]. now apply escape_head in E'.
    + inversion E as [[Ea E']]. f_equal. now apply IH.
Qed.

(** X1: the detached form of a command determines the command: two
    different command lines are never wrapped into the same line. *)
Theorem bg_wrap_injective (cmd1 cmd2 : string) :
  cmd1 <> cmd2 -> bg_wrap cmd1 <> bg_wrap cmd2.
Proof.
  intros Hne E. apply Hne. unfold bg_wrap in E.
  apply append_cancel_l in E. apply append_cancel_l in E.
  apply append_cancel_r in E. now apply escape_injective.
Qed.

Section More_session.

Context {H : Helpers} (env : Env).

(** X2: [debug] only prints: with the flag set, [exec] shows the
    argument tuple and the command line before anything else it prints,
    and sends the same command, returns the same result and writes the
    same error lines as without it. *)
Theorem exec_debug_only_prints (cmd : string) (args : list pyval)
  (b c : bool) (st : State) :
  let quiet := {| bg := b; debug := false; capture_output := c |} in
  let loud := {| bg := b; debug := true; capture_output := c |} in
  fst (exec env cmd args loud st) = fst (exec env cmd args quiet st) /\
  trace (snd (exec env cmd args loud st)) =
    trace (snd (exec env cmd args quiet st)) /\
  stderr (snd (exec env cmd args loud st)) =
    stderr (snd (exec env cmd args quiet st)) /\
  exists shown : list string,
    stdout (snd (exec env cmd args quiet st)) = (stdout st ++ shown)%list /\
    stdout (snd (exec env cmd args loud st)) =
      (stdout st
         ++ [(repr_args env args ++ newline)%string;
             (command_line cmd args quiet ++ newline)%string]
         ++ shown)%list.
Proof.
  intros quiet loud. rewrite !exec_spec. cbv zeta.
  change (command_line cmd args loud) with (command_line cmd args quiet).
  destruct (exec_command env (trace st) (command_line cmd args quiet))
    as [[out err]|]; cbn.
  - repeat split. exists (if c then [] else out).
    split; reflexivity.
  - repeat split. exists []. split; reflexivity.
Qed.

(** X3: a [get] without staging asks the remote host for one thing only,
    the transfer of the resolved pair; no command is run, nothing goes
    to the error channel, and the call fails exactly when the transfer
    does. *)
Theorem get_plain_single_transfer (self : Session) (remotepath : string)
  (localpath : pyval) (st : State) (paths : Paths.t) :
  startswith "hdfs" remotepath = false ->
  _sftp_paths env self localpath (PyStr remotepath) = inr paths ->
  let result := get env self remotepath localpath false st in
  let remote := Paths.remotepath paths in
  let local := Paths.localpath paths in
  trace (snd result) = (trace st ++ [SftpGet remote local])%list /\
  stderr (snd result) = stderr st /\
  fst result =
    if snd (sftp_get env (trace st) remote local) then inr tt
    else inl IOError.
Proof.
  intros Hplain Hpaths result remote local. subst result.
  unfold get. rewrite Hplain. cbv [orb bind lift]. rewrite Hpaths.
  cbv [ret sftp_get_file bind log]. cbn [trace fst snd].
  rewrite report_progress_spec. cbn [trace stdout stderr].
  fold remote. fold local.
  destruct (snd (sftp_get env (trace st) remote local)); cbn;
    repeat split.
Qed.

(** X4: a [put] without staging transfers the file to the resolved
    remote path and does nothing else on the remote host. *)
Theorem put_plain_single_transfer (self : Session) (localpath : string)
  (remotepath : string) (st : State) (paths : Paths.t) :
  startswith "hdfs" remotepath = false ->
  _sftp_paths env self (PyStr localpath) (PyStr remotepath) = inr paths ->
  let result := put env self localpath (PyStr remotepath) false st in
  let remote := Paths.remotepath paths in
  let local := Paths.localpath paths in
  trace (snd result) = (trace st ++ [SftpPut local remote])%list /\
  stderr (snd result) = stderr st /\
  fst result =
    if snd (sftp_put env (trace st) local remote) then inr tt
    else inl IOError.
Proof.
  intros Hplain Hpaths result remote local. subst result.
  unfold put. cbv [startswith_hdfs]. rewrite Hplain. cbv [bind lift].
  rewrite Hpaths.
  cbv [ret sftp_put_file bind log]. cbn [trace fst snd].
  rewrite report_progress_spec. cbn [trace stdout stderr].
  fold remote. fold local.
  destruct (snd (sftp_put env (trace st) local remote)); cbn;
    repeat split.
Qed.

(** X5: a staged [put] first transfers the file to a temporary path
    under [/tmp] named after the local path as given, then sends
    [hadoop fs -put] from there to the remote path as given, then sends
    the removal of the temporary path. A failed transfer raises before
    any command is sent, and a bridge command that the connection fails
    to deliver raises before the removal. What a delivered bridge
    command answers is not examined: the removal follows it in every
    case, and the call returns normally once the removal was
    delivered. *)
Theorem put_staged_order (self : Session) (localpath : string)
  (remotepath : pyval) (hadoop_flag : bool) (st : State) (paths : Paths.t) :
  (if hadoop_flag then inr true else startswith_hdfs remotepath) = inr true ->
  _sftp_paths env self (PyStr localpath) remotepath = inr paths ->
  let local := Paths.localpath paths in
  let tmp :=
    "/tmp/" ++ replace_char "/"%char "_" localpath ++ "_"
      ++ time_time env (trace st) in
  let bridge :=
    add_arguments_to_cmd "hadoop fs" [PyStr "-put"; PyStr tmp; remotepath] in
  let cleanup := add_arguments_to_cmd "rm" [PyStr tmp] in
  let result := put env self localpath remotepath hadoop_flag st in
  let sent := (trace st ++ [SftpPut local tmp])%list in
  trace (snd result) =
    (trace st ++
     if snd (sftp_put env (trace st) local tmp) then
       match exec_command env sent bridge with
       | None => [SftpPut local tmp; ExecCommand bridge]
       | Some _ =>
           [SftpPut local tmp; ExecCommand bridge; ExecCommand cleanup]
       end
     else [SftpPut local tmp])%list /\
  (snd (sftp_put env (trace st) local tmp) = false ->
   fst result = inl IOError) /\
  (snd (sftp_put env (trace st) local tmp) = true ->
   exec_command env sent bridge = None ->
   fst result = inl SSHException) /\
  (forall answer : list string * list string,
     snd (sftp_put env (trace st) local tmp) = true ->
     exec_command env sent bridge = Some answer ->
     fst result =
       match exec_command env (sent ++ [ExecCommand bridge]) cleanup with
       | Some _ => inr tt
       | None => inl SSHException
       end).
Proof.
  intros Hflag Hpaths local tmp bridge cleanup result sent.
  assert (Hbridge :
    command_line "hadoop fs"
      [PyStr ("-" ++ lstrip_dashes "put"); PyStr tmp; remotepath]
      default_kwargs = bridge) by reflexivity.
  assert (Hcleanup :
    command_line "rm" [PyStr tmp] default_kwargs = cleanup) by reflexivity.
  assert (Hflag' :
    (if hadoop_flag then ret true else lift (startswith_hdfs remotepath)) st
    = (inr true, st)).
  { destruct hadoop_flag; cbv [ret lift]; [reflexivity | now rewrite Hflag]. }
  assert (Hput :
    result =
    (sftp_put_file env local tmp ;;
     hadoop env "put" [PyStr tmp; remotepath] default_kwargs ;;
     exec env "rm" [PyStr tmp] default_kwargs ;;
     ret tt) st).
  { subst result. unfold put. unfold bind at 1. rewrite Hflag'.
    unfold bind at 1, lift. rewrite Hpaths. reflexivity. }
  rewrite Hput. clear Hput.
  cbv [ret sftp_put_file bind log]. cbn [trace fst snd].
  rewrite report_progress_spec. cbn [trace stdout stderr].
  fold sent.
  destruct (snd (sftp_put env (trace st) local tmp)).
  - cbv [hadoop]. rewrite exec_spec. cbv zeta. cbn [trace].
    rewrite Hbridge.
    destruct (exec_command env sent bridge) as [[out err]|].
    + rewrite exec_spec. cbv zeta. cbn [trace]. rewrite Hcleanup.
      split; [|split; [discriminate | split; [discriminate|]]].
      * destruct (exec_command env _ cleanup) as [[out' err']|];
          cbn; subst sent; now rewrite <- !app_assoc.
      * intros answer _ _.
        destruct (exec_command env _ cleanup) as [[out' err']|];
          reflexivity.
    + cbn. split; [|split; [discriminate | split; [reflexivity|]]].
      * subst sent. now rewrite <- !app_assoc.
      * intros answer _ E. discriminate E.
  - cbv [raise]. cbn. split; [reflexivity|].
    split; [reflexivity | split; [discriminate|]].
    intros answer E. discriminate E.
Qed.

Lemma lstrip_dashes_repeat (n : nat) (s : string) :
  lstrip_dashes (string_of_list_ascii (repeat "-"%char n) ++ s) =
  lstrip_dashes s.
Proof.
  induction n as [|n IH]; simpl; [reflexivity | exact IH].
Qed.

(** X6: dashes in front of a subcommand never matter to [hadoop]: with
    any number of them added, the same call is made. *)
Theorem hadoop_ignores_leading_dashes (n : nat) (command : string)
  (args : list pyval) (kw : Kwargs) (st : State) :
  hadoop env (string_of_list_ascii (repeat "-"%char n) ++ command) args kw st
  = hadoop env command args kw st.
Proof.
  unfold hadoop. now rewrite lstrip_dashes_repeat.
Qed.

End More_session.

(** ** Job submission, continued *)

(** X7: the merge touches only the five option names of the shorthand
    fields: an option supplied under any other name, [application_class]
    among them, keeps its value. *)
Theorem merged_options_keeps_other_options (spark_options : option dict)
  (sh : Shorthand) (k : string) :
  ~ In k ["master"; "jars"; "files"; "driver_class_path"; "class"] ->
  dict_get (merged_options spark_options sh) k =
  dict_get match spark_options with Some d => d | None => [] end k.
Proof.
  intros Hnot. rewrite merged_options_fold.
  rewrite fold_set_other by exact Hnot.
  destruct spark_options as [[|kv rest]|]; reflexivity.
Qed.

Section More_submission.

Context {H : Helpers} (env : Env).

(** X8: with no options at all, neither a mapping nor a shorthand field,
    and a helper that cleans the empty mapping to the empty mapping, the
    command is [spark-submit], an empty option string between two
    spaces, the application, a space and the arguments; this is the one
    command a successful submission sends. *)
Theorem spark_submit_without_options (spark_options : option dict)
  (application application_args : string) (st : State) :
  clean_spark_options [] = [] ->
  spark_options = None \/ spark_options = Some [] ->
  truthy_str application = true ->
  spark_cmd spark_options no_shorthand (PyStr application) application_args =
    "spark-submit  " ++ application ++ " " ++ application_args /\
  trace (snd (spark_submit env spark_options no_shorthand
                (PyStr application) application_args st)) =
    (trace st
       ++ [ExecCommand
             (add_arguments_to_cmd
                ("spark-submit  " ++ application ++ " " ++ application_args)
                [])])%list.
Proof.
  intros Hclean Hopts Happ.
  assert (Hcmd :
    spark_cmd spark_options no_shorthand (PyStr application) application_args
    = "spark-submit  " ++ application ++ " " ++ application_args).
  { unfold spark_cmd, spark_options_str.
    assert (Hm : merged_options spark_options no_shorthand = [])
      by (destruct Hopts as [-> | ->]; reflexivity).
    rewrite Hm, Hclean. reflexivity. }
  split; [exact Hcmd|].
  unfold spark_submit. cbn [truthy]. rewrite Happ. rewrite Hcmd.
  unfold bind.
  pose proof (exec_trace env
    ("spark-submit  " ++ application ++ " " ++ application_args) []
    default_kwargs st) as Ht.
  destruct (exec env _ [] default_kwargs st) as [[e|a] st']; exact Ht.
Qed.

(** ** The bootstrap *)

(** X9: when authentication is asked for and the secret store has no
    usable secret, construction stops at [kinit]: the error is raised
    with the state untouched, so the home directory is never asked
    for. *)
Theorem init_without_secret_aborts (self : Session) (st : State) :
  truthy (_get_password env self "kinit") = false ->
  init_after_connect env self true st = (inl (OSError kinit_message), st).
Proof.
  intros Hpw. unfold init_after_connect, bind, kinit.
  rewrite Hpw. reflexivity.
Qed.

(** X10: with a secret, the bootstrap authenticates first and asks for
    the home directory second; what [kinit] prints is shown, the answer
    to [echo $HOME] is captured instead, and the session comes back with
    the stripped answer as its home directory. *)
Theorem init_authenticates_then_resolves_home (self : Session) (st : State)
  (pw : string) (out1 err1 out2 err2 : list string) :
  _get_password env self "kinit" = PyStr pw ->
  truthy_str pw = true ->
  let auth := add_arguments_to_cmd ("echo " ++ pw ++ " | kinit") [] in
  let home := add_arguments_to_cmd "echo $HOME" [] in
  exec_command env (trace st) auth = Some (out1, err1) ->
  exec_command env (trace st ++ [ExecCommand auth]) home = Some (out2, err2) ->
  init_after_connect env self true st =
  (inr {| profile := profile self;
          local_user := local_user self;
          _remote_home_dir := strip (join EmptyString out2) |},
   {| stdout := stdout st ++ out1;
      stderr := stderr st ++ err1 ++ err2;
      trace := trace st ++ [ExecCommand auth; ExecCommand home] |}).
Proof.
  intros Hpw Htruthy auth home Hauth Hhome.
  unfold init_after_connect, kinit. rewrite Hpw. cbn [truthy str].
  rewrite Htruthy.
  unfold init_remote_home_dir, get_output. cbv [bind].
  rewrite exec_spec. cbv zeta.
  change (command_line ("echo " ++ pw ++ " | kinit") [] default_kwargs)
    with auth.
  rewrite Hauth. cbv [ret]. rewrite exec_spec. cbv zeta. cbn [trace].
  change (command_line "echo $HOME" []
            {| bg := bg default_kwargs; debug := debug default_kwargs;
               capture_output := true |}) with home.
  rewrite Hhome. cbn. now rewrite app_nil_r, <- !app_assoc.
Qed.

Lemma rstrip_cons (c : ascii) (s : string) :
  rstrip (String c s) =
  match rstrip s with
  | EmptyString => if isspace c then EmptyString else String c EmptyString
  | r => String c r
  end.
Proof. reflexivity. Qed.

Lemma rstrip_fixed (s : string) : rstrip (rstrip s) = rstrip s.
Proof.
  induction s as [|c s IH]; [reflexivity|].
  rewrite rstrip_cons.
  destruct (rstrip s) as [|d r] eqn:E.
  - destruct (isspace c) eqn:Ec; [reflexivity|].
    rewrite rstrip_cons. cbn [rstrip]. now rewrite Ec.
  - rewrite rstrip_cons, IH. reflexivity.
Qed.

Lemma lstrip_strip (s : string) : lstrip (strip s) = strip s.
Proof.
  unfold strip. induction s as [|c s IH]; [reflexivity|].
  cbn [lstrip]. destruct (isspace c) eqn:Ec; [exact IH|].
  rewrite rstrip_cons.
  destruct (rstrip s); rewrite ?Ec; cbn [lstrip]; now rewrite Ec.
Qed.

(** X11: the home directory the bootstrap caches has no whitespace at
    either end: stripping it again, on the left or on the right, leaves
    it as it is. *)
Theorem remote_home_dir_is_stripped (self self' : Session) (st : State) :
  fst (init_remote_home_dir env self st) = inr self' ->
  lstrip (_remote_home_dir self') = _remote_home_dir self' /\
  rstrip (_remote_home_dir self') = _remote_home_dir self' /\
  profile self' = profile self /\
  local_user self' = local_user self.
Proof.
  unfold init_remote_home_dir, get_output, bind. rewrite exec_spec.
  cbv zeta.
  destruct (exec_command env (trace st) _) as [[out err]|]; cbn;
    [|discriminate].
  intros E. inversion E; subst self'. cbn. unfold strip.
  split; [|split; [|split; reflexivity]].
  - apply lstrip_strip.
  - apply rstrip_fixed.
Qed.

(** ** Path resolution, continued *)

Lemma replace_char_absent (c : ascii) (new s : string) :
  ~ In c (list_ascii_of_string s) -> replace_char c new s = s.
Proof.
  induction s as [|a s IH]; simpl; intros Hnot; [reflexivity|].
  destruct (Ascii.eqb_spec a c) as [->|Hne].
  - exfalso. apply Hnot. now left.
  - f_equal. apply IH. intros Hin. apply Hnot. now right.
Qed.

(** X12: when the helper hands back the two paths given, a remote path
    without the home marker is resolved to itself, and the local path to
    its expansion by [expanduser]. *)
Theorem sftp_paths_without_marker (self : Session)
  (localpath remotepath : string) :
  default_sftp_path (PyStr localpath) (PyStr remotepath) = PyStr localpath ->
  default_sftp_path (PyStr remotepath) (PyStr localpath) = PyStr remotepath ->
  ~ In "~"%char (list_ascii_of_string remotepath) ->
  _sftp_paths env self (PyStr localpath) (PyStr remotepath) =
  inr {| Paths.localpath := expanduser env localpath;
         Paths.remotepath := remotepath |}.
Proof.
  intros Hl Hr Hnot. unfold _sftp_paths. rewrite Hl, Hr. cbn [str].
  now rewrite replace_char_absent.
Qed.

End More_submission.

(** * The setup dialogue *)

Lemma list_pair_ind {A : Type} (P : list A -> Prop) :
  P [] -> (forall a, P [a]) -> (forall a b l, P l -> P (a :: b :: l)) ->
  forall l, P l.
Proof.
  intros Hnil Hone Hstep l.
  assert (Hboth : P l /\ forall a, P (a :: l)).
  { induction l as [|x l [IHl IHcons]].
    - split; [exact Hnil | exact Hone].
    - split; [apply IHcons | intros a; now apply Hstep]. }
  exact (proj1 Hboth).
Qed.

Lemma truthy_str_nonempty (s : string) :
  truthy_str s = true -> s <> EmptyString.
Proof. destruct s; [discriminate | intros _; discriminate]. Qed.

Lemma password_loop_written (profile : string) (user : pyval)
  (answers : list string) :
  forall c : Cli,
    written (snd (password_loop profile user answers c)) = written c.
Proof.
  induction answers as [| pw | pw pw2 rest IH] using list_pair_ind;
    intros c; cbn.
  - reflexivity.
  - destruct (truthy_str pw); reflexivity.
  - destruct (truthy_str pw); cbn; [|reflexivity].
    destruct (String.eqb pw pw2); cbn; [reflexivity|].
    now rewrite IH.
Qed.

Lemma password_loop_stored (profile : string) (user : pyval)
  (answers : list string) :
  forall c : Cli,
    stored (snd (password_loop profile user answers c)) = stored c \/
    exists (pw : string) (before after : list string),
      answers = (before ++ pw :: pw :: after)%list /\
      pw <> EmptyString /\
      fst (password_loop profile user answers c) = inr after /\
      stored (snd (password_loop profile user answers c)) =
        (stored c ++ [((profile ++ "_kinit")%string, user, pw)])%list.
Proof.
  induction answers as [| pw | pw pw2 rest IH] using list_pair_ind;
    intros c; cbn.
  - now left.
  - left. destruct (truthy_str pw); reflexivity.
  - destruct (truthy_str pw) eqn:Hpw; cbn; [|now left].
    destruct (String.eqb_spec pw pw2) as [<-|Hne]; cbn.
    + right. exists pw, [], rest. repeat split.
      now apply truthy_str_nonempty.
    + destruct (IH (cli_print "passwords do not match"
                      (ask "Enter the kinit password again: "
                         (ask "Enter the profile's kinit password: " c))))
        as [Hsame | (pw' & before & after & Hans & Hnonempty & Hres & Hst)].
      * left. exact Hsame.
      * right. exists pw', (pw :: pw2 :: before), after.
        subst rest. repeat split; assumption.
Qed.

Lemma password_loop_consumes (profile : string) (user : pyval)
  (answers : list string) :
  forall (c : Cli) (rest : list string),
    fst (password_loop profile user answers c) = inr rest ->
    exists dialogue : list string, answers = (dialogue ++ rest)%list.
Proof.
  induction answers as [| pw | pw pw2 more IH] using list_pair_ind;
    intros c rest; cbn.
  - discriminate.
  - destruct (truthy_str pw); cbn; [discriminate|].
    intros E. inversion E. now exists [pw].
  - destruct (truthy_str pw); cbn.
    + destruct (String.eqb pw pw2); cbn.
      * intros E. inversion E. now exists [pw; pw2].
      * intros E. apply IH in E. destruct E as [dialogue ->].
        now exists (pw :: pw2 :: dialogue).
    + intros E. inversion E. now exists [pw].
Qed.

Lemma main_stored (user : pyval) (profile : string) (rest : list string)
  (c : Cli) :
  stored (snd (main user (profile :: rest) c)) =
  stored (snd (password_loop profile user rest
                 (ask "What is the name of the profile? " c))).
Proof.
  unfold main, prompt.
  destruct (password_loop profile user rest _) as [[e|rest'] c1]; cbn;
    [reflexivity|].
  destruct rest' as [|x1 [|x2 [|x3 more]]]; reflexivity.
Qed.

(** X13: a run of the setup dialogue stores at most one secret, under
    the key [<profile>_kinit] and the user of the environment, and only
    a non-empty password that was typed twice in a row. *)
Theorem main_stores_confirmed_password (user : pyval)
  (answers : list string) (c : Cli) :
  stored (snd (main user answers c)) = stored c \/
  exists (profile pw : string) (before after : list string),
    answers = profile :: (before ++ pw :: pw :: after)%list /\
    pw <> EmptyString /\
    stored (snd (main user answers c)) =
      (stored c ++ [((profile ++ "_kinit")%string, user, pw)])%list.
Proof.
  destruct answers as [|profile rest]; [now left|].
  rewrite main_stored.
  destruct (password_loop_stored profile user rest
              (ask "What is the name of the profile? " c))
    as [Hsame | (pw & before & after & Hans & Hnonempty & _ & Hst)].
  - left. exact Hsame.
  - right. exists profile, pw, before, after. subst rest.
    repeat split; assumption.
Qed.

(** X14: the configuration is written exactly when the dialogue runs to
    its end, once, under the profile name given first and with the last
    three answers as [HIVE_OPTS], [HIVE_JDBC] and [SPARK_CONF]; when the
    input ends early nothing is written. *)
Theorem main_writes_conf_on_completion (user : pyval)
  (answers : list string) (c : Cli) :
  match fst (main user answers c) with
  | inl EOFError => written (snd (main user answers c)) = written c
  | inr _ =>
      exists (profile hive_opts hive_jdbc spark_conf : string)
             (dialogue more : list string),
        answers =
          profile
            :: (dialogue ++ hive_opts :: hive_jdbc :: spark_conf :: more)%list
        /\ written (snd (main user answers c)) =
             (written c
                ++ [(profile,
                     [("HIVE_OPTS", hive_opts); ("HIVE_JDBC", hive_jdbc);
                      ("SPARK_CONF", spark_conf)])])%list
  end.
Proof.
  destruct answers as [|profile rest]; [reflexivity|].
  unfold main, prompt.
  pose proof (password_loop_written profile user rest
                (ask "What is the name of the profile? " c)) as Hw.
  pose proof (password_loop_consumes profile user rest
                (ask "What is the name of the profile? " c)) as Hc.
  destruct (password_loop profile user rest _) as [[[]|rest'] c1];
    cbn in *; [exact Hw|].
  destruct (Hc rest' eq_refl) as [dialogue ->].
  destruct rest' as [|x1 [|x2 [|x3 more]]]; cbn; try exact Hw.
  exists profile, x1, x2, x3, dialogue, more. rewrite Hw. now split.
Qed.

(** X15: an empty answer to the password prompt skips the secret store:
    nothing is stored or printed, the second password prompt is not
    shown, and the dialogue goes on to the three settings and writes
    them. *)
Theorem main_empty_password_skips_keyring (user : pyval)
  (profile hive_opts hive_jdbc spark_conf : string) (more : list string)
  (c : Cli) :
  main user
    (profile :: EmptyString :: hive_opts :: hive_jdbc :: spark_conf :: more)
    c =
  (inr tt,
   {| prompted :=
        prompted c
          ++ [ "What is the name of the profile? ";
               "Enter the profile's kinit password: ";
               "Hive Options: ";
               "Hive JDBC connection string: ";
               "Spark Shell Configuration String: " ];
      printed := printed c;
      stored := stored c;
      written :=
        written c
          ++ [(profile,
               [("HIVE_OPTS", hive_opts); ("HIVE_JDBC", hive_jdbc);
                ("SPARK_CONF", spark_conf)])] |}).
Proof.
  destruct c as [p o s w]. cbv [main prompt password_loop truthy_str negb
    write_issho_conf ask prompted printed stored written].
  now rewrite <- !app_assoc.
Qed.

Lemma keyring_lookup_last (calls : list (string * pyval * string))
  (service : string) (username : pyval) (password : string) :
  keyring_lookup (calls ++ [(service, username, password)]) service username
  = PyStr password.
Proof.
  induction calls as [|[[s u] p] calls IH]; cbn.
  - rewrite String.eqb_refl.
    destruct username as [|name]; cbn; [reflexivity|].
    now rewrite String.eqb_refl.
  - now rewrite IH.
Qed.

(** X16: what the dialogue stores, [kinit] finds: after a run in which
    a non-empty password is typed twice, a session of the same profile
    and user, over the secret store the dialogue wrote to and with the
    key format [<profile>_kinit], authenticates with that password. *)
Theorem main_then_kinit {H : Helpers} (env : Env) (self : Session)
  (pw : string) (settings : list string) (c : Cli) (st : State) :
  truthy_str pw = true ->
  issho_pw_name "kinit" (profile self) = profile self ++ "_kinit" ->
  (forall service : string,
     keyring_get_password env service (local_user self) =
     keyring_lookup
       (stored (snd (main (PyStr (local_user self))
                       (profile self :: pw :: pw :: settings) c)))
       service (PyStr (local_user self))) ->
  _get_password env self "kinit" = PyStr pw /\
  trace (snd (kinit env self st)) =
    (trace st
       ++ [ExecCommand
             (add_arguments_to_cmd ("echo " ++ pw ++ " | kinit") [])])%list.
Proof.
  intros Hpw Hkey Hring.
  assert (Hget : _get_password env self "kinit" = PyStr pw).
  { unfold _get_password. rewrite Hkey, Hring, main_stored. cbn.
    rewrite Hpw. cbn. rewrite String.eqb_refl. cbn.
    apply keyring_lookup_last. }
  split; [exact Hget|].
  unfold kinit. rewrite Hget. cbn [truthy str]. rewrite Hpw.
  unfold bind.
  pose proof (exec_trace env ("echo " ++ pw ++ " | kinit") []
                default_kwargs st) as Ht.
  destruct (exec env _ [] default_kwargs st) as [[e|a] st']; exact Ht.
Qed.

(** * Query submission *)

Lemma endswith_refl (s : string) : endswith s s = true.
Proof. destruct s; cbn [endswith]; now rewrite String.eqb_refl. Qed.

Lemma endswith_append (text suffix : string) :
  endswith suffix (text ++ suffix) = true.
Proof.
  induction text as [|c text IH]; cbn [append].
  - apply endswith_refl.
  - cbn [endswith]. rewrite IH. apply orb_true_r.
Qed.

Section More_query.

Context {H : Helpers} (env : Env).

Lemma sftp_put_file_spec (localpath remotepath : string) (st : State) :
  sftp_put_file env localpath remotepath st =
  ((if snd (sftp_put env (trace st) localpath remotepath)
    then inr tt else inl IOError),
   {| stdout :=
        stdout st
          ++ map (fun r =>
                    naturalsize env (fst r)
                      ++ " transferred out of a total of "
                      ++ naturalsize env (snd r) ++ newline)
               (fst (sftp_put env (trace st) localpath remotepath));
      stderr := stderr st;
      trace := trace st ++ [SftpPut localpath remotepath] |}).
Proof.
  cbv [sftp_put_file bind log]. cbn [trace fst snd].
  rewrite report_progress_spec. cbn [trace stdout stderr].
  destruct (snd (sftp_put env (trace st) localpath remotepath));
    reflexivity.
Qed.

Lemma sftp_get_file_spec (remotepath localpath : string) (st : State) :
  sftp_get_file env remotepath localpath st =
  ((if snd (sftp_get env (trace st) remotepath localpath)
    then inr tt else inl IOError),
   {| stdout :=
        stdout st
          ++ map (fun r =>
                    naturalsize env (fst r)
                      ++ " transferred out of a total of "
                      ++ naturalsize env (snd r) ++ newline)
               (fst (sftp_get env (trace st) remotepath localpath));
      stderr := stderr st;
      trace := trace st ++ [SftpGet remotepath localpath] |}).
Proof.
  cbv [sftp_get_file bind log]. cbn [trace fst snd].
  rewrite report_progress_spec. cbn [trace stdout stderr].
  destruct (snd (sftp_get env (trace st) remotepath localpath));
    reflexivity.
Qed.

Lemma put_plain_eq (self : Session) (localpath remotepath : string)
  (st : State) (paths : Paths.t) :
  startswith "hdfs" remotepath = false ->
  _sftp_paths env self (PyStr localpath) (PyStr remotepath) = inr paths ->
  put env self localpath (PyStr remotepath) false st =
  sftp_put_file env (Paths.localpath paths) (Paths.remotepath paths) st.
Proof.
  intros Hplain Hpaths. unfold put. cbv [startswith_hdfs].
  rewrite Hplain. cbv [bind lift]. rewrite Hpaths. cbv [ret].
  destruct (sftp_put_file env _ _ st) as [[e|[]] st']; reflexivity.
Qed.

Lemma get_plain_eq (self : Session) (remotepath : string)
  (localpath : pyval) (st : State) (paths : Paths.t) :
  startswith "hdfs" remotepath = false ->
  _sftp_paths env self localpath (PyStr remotepath) = inr paths ->
  get env self remotepath localpath false st =
  sftp_get_file env (Paths.remotepath paths) (Paths.localpath paths) st.
Proof.
  intros Hplain Hpaths. unfold get. rewrite Hplain.
  cbv [orb bind lift]. rewrite Hpaths. cbv [ret].
  destruct (sftp_get_file env _ _ st) as [[e|[]] st']; reflexivity.
Qed.

(** X17: any query text that ends in [sql] (or [hql]) is taken for the
    name of a file to copy, never written out as a query; and when that
    copy fails, [hive] stops there, with nothing sent to the remote
    host. *)
Theorem hive_takes_sql_suffix_for_file (local : LocalOp -> bool)
  (conf : HiveConf) (self : Session) (text : string)
  (output_filename : pyval) (remove_blank_top_line : bool) (st : State) :
  let tmp_filename := hive_tmp_filename env st in
  hive_stage_query (text ++ "sql") tmp_filename =
    CopyFile (text ++ "sql") tmp_filename /\
  hive_stage_query (text ++ "hql") tmp_filename =
    CopyFile (text ++ "hql") tmp_filename /\
  (local (CopyFile (text ++ "sql") tmp_filename) = false ->
   hive env local conf self (text ++ "sql") output_filename
     remove_blank_top_line st = (inl IOError, st)).
Proof.
  intros tmp_filename.
  assert (Hsql : hive_stage_query (text ++ "sql") tmp_filename =
                 CopyFile (text ++ "sql") tmp_filename).
  { unfold hive_stage_query. now rewrite endswith_append. }
  split; [exact Hsql|]. split.
  - unfold hive_stage_query. rewrite (endswith_append text "hql").
    now rewrite orb_true_r.
  - intros Hfail. unfold hive. fold tmp_filename.
    now rewrite Hsql, Hfail.
Qed.

(** X18: without an output file, [hive] uploads the staged query to the
    same path on the remote host and runs [beeline] on it with no
    redirection; the first-line filter [| sed 1d] is in the command
    exactly when [remove_blank_top_line] is set, and nothing is fetched
    back. *)
Theorem hive_without_output (local : LocalOp -> bool) (conf : HiveConf)
  (self : Session) (query : string) (output_filename : pyval)
  (remove_blank_top_line : bool) (st : State) (paths : Paths.t) :
  let tmp_filename := hive_tmp_filename env st in
  truthy output_filename = false ->
  local (hive_stage_query query tmp_filename) = true ->
  _sftp_paths env self (PyStr tmp_filename) (PyStr tmp_filename)
    = inr paths ->
  let upload := SftpPut (Paths.localpath paths) (Paths.remotepath paths) in
  let beeline :=
    add_arguments_to_cmd
      ("beeline " ++ HIVE_OPTS conf ++ " -u  " ++ dquote ++ HIVE_JDBC conf
         ++ dquote ++ " -f " ++ tmp_filename ++ " "
         ++ (if remove_blank_top_line then "| sed 1d" else EmptyString)
         ++ " ") [] in
  trace (snd (hive env local conf self query output_filename
                remove_blank_top_line st)) =
    (trace st ++
     if snd (sftp_put env (trace st) (Paths.localpath paths)
               (Paths.remotepath paths))
     then [upload; ExecCommand beeline]
     else [upload])%list.
Proof.
  intros tmp_filename Hout Hlocal Hpaths upload beeline.
  unfold hive. fold tmp_filename. rewrite Hlocal, Hout.
  unfold bind at 1.
  rewrite (put_plain_eq self tmp_filename tmp_filename st paths eq_refl Hpaths).
  rewrite sftp_put_file_spec.
  destruct (snd (sftp_put env (trace st) _ _)); [|reflexivity].
  unfold bind. rewrite exec_spec. cbv zeta. cbn [trace].
  assert (Hcmd :
    command_line
      (hive_cmd conf tmp_filename output_filename remove_blank_top_line)
      [] default_kwargs = beeline).
  { unfold hive_cmd. rewrite Hout. reflexivity. }
  rewrite Hcmd.
  destruct (exec_command env _ beeline) as [[out err]|]; cbn;
    now rewrite <- !app_assoc.
Qed.

(** X19: with an output file, the [beeline] command redirects into
    [<temporary file>.output] on the remote host, and that file is
    fetched to the output path after the command; the upload, the
    command and the download happen in this order. A failed upload
    raises before the command is sent, and a command that the
    connection fails to deliver raises before the download. What a
    delivered [beeline] answers is not examined: the download follows
    it in every case, and the call then ends as the download does. *)
Theorem hive_with_output (local : LocalOp -> bool) (conf : HiveConf)
  (self : Session) (query : string) (output_filename : pyval)
  (remove_blank_top_line : bool) (st : State) (paths results : Paths.t) :
  let tmp_filename := hive_tmp_filename env st in
  truthy output_filename = true ->
  local (hive_stage_query query tmp_filename) = true ->
  _sftp_paths env self (PyStr tmp_filename) (PyStr tmp_filename)
    = inr paths ->
  _sftp_paths env self output_filename (PyStr (tmp_filename ++ ".output"))
    = inr results ->
  let upload := SftpPut (Paths.localpath paths) (Paths.remotepath paths) in
  let beeline :=
    add_arguments_to_cmd
      ("beeline " ++ HIVE_OPTS conf ++ " -u  " ++ dquote ++ HIVE_JDBC conf
         ++ dquote ++ " -f " ++ tmp_filename ++ " "
         ++ (if remove_blank_top_line then "| sed 1d" else EmptyString)
         ++ " > " ++ tmp_filename ++ ".output") [] in
  let download :=
    SftpGet (Paths.remotepath results) (Paths.localpath results) in
  trace (snd (hive env local conf self query output_filename
                remove_blank_top_line st)) =
    (trace st ++
     if snd (sftp_put env (trace st) (Paths.localpath paths)
               (Paths.remotepath paths))
     then
       match exec_command env (trace st ++ [upload]) beeline with
       | None => [upload; ExecCommand beeline]
       | Some _ => [upload; ExecCommand beeline; download]
       end
     else [upload])%list /\
  (forall answer : list string * list string,
     snd (sftp_put env (trace st) (Paths.localpath paths)
            (Paths.remotepath paths)) = true ->
     exec_command env (trace st ++ [upload]) beeline = Some answer ->
     fst (hive env local conf self query output_filename
            remove_blank_top_line st) =
       if snd (sftp_get env (trace st ++ [upload; ExecCommand beeline])
                 (Paths.remotepath results) (Paths.localpath results))
       then inr tt else inl IOError).
Proof.
  intros tmp_filename Hout Hlocal Hpaths Hresults upload beeline download.
  assert (Hcmd :
    command_line
      (hive_cmd conf tmp_filename output_filename remove_blank_top_line)
      [] default_kwargs = beeline).
  { unfold hive_cmd. rewrite Hout. reflexivity. }
  split; [|intros answer Hupload Hanswer];
    unfold hive; fold tmp_filename; rewrite Hlocal, Hout;
    unfold bind at 1;
    rewrite (put_plain_eq self tmp_filename tmp_filename st paths eq_refl
               Hpaths);
    rewrite sftp_put_file_spec.
  - destruct (snd (sftp_put env (trace st) _ _)); [|reflexivity].
    unfold bind. rewrite exec_spec. cbv zeta. cbn [trace].
    rewrite Hcmd. fold upload.
    destruct (exec_command env _ beeline) as [[out err]|];
      [|cbn; now rewrite <- !app_assoc].
    rewrite (get_plain_eq self (tmp_filename ++ ".output") output_filename
               _ results eq_refl Hresults).
    rewrite sftp_get_file_spec. cbn [snd trace]. fold download.
    now rewrite <- !app_assoc.
  - rewrite Hupload. unfold bind. rewrite exec_spec. cbv zeta.
    cbn [trace]. rewrite Hcmd. fold upload. rewrite Hanswer.
    destruct answer as [out err].
    rewrite (get_plain_eq self (tmp_filename ++ ".output") output_filename
               _ results eq_refl Hresults).
    rewrite sftp_get_file_spec. cbn [fst trace].
    now rewrite <- !app_assoc.
Qed.

End More_query.

Lemma cli_app_empty (c : Cli) : cli_app c empty_cli = c.
Proof.
  destruct c. unfold cli_app. cbn. now rewrite !app_nil_r.
Qed.

Lemma cli_app_assoc (a b c : Cli) :
  cli_app (cli_app a b) c = cli_app a (cli_app b c).
Proof.
  unfold cli_app. cbn. now rewrite !app_assoc.
Qed.

(** The loop only adds to what the dialogue has done: its outcome and
    what it adds depend on the answers alone. *)
Lemma password_loop_frame (profile : string) (user : pyval)
  (answers : list string) :
  forall c : Cli,
    password_loop profile user answers c =
    (fst (password_loop profile user answers empty_cli),
     cli_app c (snd (password_loop profile user answers empty_cli))).
Proof.
  induction answers as [| pw | pw pw2 rest IH] using list_pair_ind;
    intros c.
  - destruct c. cbn. unfold cli_app, ask. cbn.
    now rewrite !app_nil_r.
  - destruct c. cbn. unfold cli_app, ask.
    destruct (truthy_str pw); cbn; now rewrite <- ?app_assoc, !app_nil_r.
  - cbn [password_loop]. destruct (truthy_str pw); cbn [negb].
    + destruct (String.eqb pw pw2); cbn [negb].
      * destruct c. unfold cli_app, set_password, ask. cbn.
        now rewrite <- !app_assoc, !app_nil_r.
      * rewrite IH.
        rewrite (IH (cli_print "passwords do not match"
                       (ask "Enter the kinit password again: "
                          (ask "Enter the profile's kinit password: "
                             empty_cli)))).
        cbn [fst snd]. rewrite <- cli_app_assoc. f_equal. f_equal.
        destruct c. unfold cli_app, cli_print, ask. cbn.
        now rewrite <- !app_assoc, !app_nil_r.
    + destruct c. unfold cli_app, ask. cbn. now rewrite !app_nil_r.
Qed.

(** X20: a pair of different entries is thrown away: apart from the
    line [passwords do not match], the dialogue ends, stores and writes
    exactly as if the two entries had not been typed. *)
Theorem main_retries_after_mismatch (user : pyval) (profile pw pw2 : string)
  (rest : list string) (c : Cli) :
  truthy_str pw = true ->
  pw <> pw2 ->
  let retried := main user (profile :: pw :: pw2 :: rest) c in
  let direct := main user (profile :: rest) c in
  fst retried = fst direct /\
  stored (snd retried) = stored (snd direct) /\
  written (snd retried) = written (snd direct) /\
  exists later : list string,
    printed (snd direct) = (printed c ++ later)%list /\
    printed (snd retried) =
      (printed c ++ ("passwords do not match" ++ newline)%string :: later)%list.
Proof.
  intros Hpw Hne retried direct. subst retried direct.
  unfold main, prompt. cbn [password_loop]. rewrite Hpw. cbn [negb].
  apply String.eqb_neq in Hne. rewrite Hne. cbn [negb].
  rewrite (password_loop_frame profile user rest
             (cli_print _ _)).
  rewrite (password_loop_frame profile user rest
             (ask "What is the name of the profile? " c)).
  destruct (password_loop profile user rest empty_cli) as [[e|rest'] d].
  - cbn. repeat split. exists (printed d). destruct c. cbn.
    split; [reflexivity | now rewrite <- app_assoc].
  - cbn [fst snd].
    destruct rest' as [|x1 [|x2 [|x3 more]]]; cbn;
      (repeat split; exists (printed d); destruct c; cbn;
       split; [reflexivity | now rewrite <- app_assoc]).
Qed.

(** ** Witnesses of the further properties *)

Lemma bg_wrap_injective_witness : bg_wrap "ls" <> bg_wrap "ls -la".
Proof. apply bg_wrap_injective. discriminate. Defined.

Lemma get_plain_single_transfer_witness :
  trace (snd (get (H := spec_helpers) echo_env dev_session "~/data/x.csv"
                PyNone false empty_state)) =
    [SftpGet "/home/alice/data/x.csv" "x.csv"] /\
  fst (get (H := spec_helpers) echo_env dev_session "~/data/x.csv"
         PyNone false empty_state) = inr tt.
Proof.
  destruct (get_plain_single_transfer (H := spec_helpers) echo_env
              dev_session "~/data/x.csv" PyNone empty_state
              {| Paths.localpath := "x.csv";
                 Paths.remotepath := "/home/alice/data/x.csv" |}
              eq_refl eq_refl) as [Htrace [_ Hres]].
  split; [exact Htrace | exact Hres].
Defined.

Lemma put_plain_single_transfer_witness :
  trace (snd (put (H := spec_helpers) echo_env dev_session "a/b.txt"
                (PyStr "~/in/b.txt") false empty_state)) =
    [SftpPut "a/b.txt" "/home/alice/in/b.txt"].
Proof.
  exact (proj1 (put_plain_single_transfer (H := spec_helpers) echo_env
                  dev_session "a/b.txt" "~/in/b.txt" empty_state
                  {| Paths.localpath := "a/b.txt";
                     Paths.remotepath := "/home/alice/in/b.txt" |}
                  eq_refl eq_refl)).
Defined.

Lemma put_staged_order_witness :
  trace (snd (put (H := spec_helpers)
                (mock_env [] ["put: No such file or directory" ++ newline]
                   true PyNone)
                dev_session "a/b.txt" (PyStr "hdfs://nn/in/b.txt") false
                empty_state)) =
    [ SftpPut "a/b.txt" "/tmp/a_b.txt_1572825600.0";
      ExecCommand
        "hadoop fs -put /tmp/a_b.txt_1572825600.0 hdfs://nn/in/b.txt";
      ExecCommand "rm /tmp/a_b.txt_1572825600.0" ] /\
  fst (put (H := spec_helpers)
         (mock_env [] ["put: No such file or directory" ++ newline]
            true PyNone)
         dev_session "a/b.txt" (PyStr "hdfs://nn/in/b.txt") false
         empty_state) = inr tt.
Proof.
  destruct (put_staged_order (H := spec_helpers)
              (mock_env [] ["put: No such file or directory" ++ newline]
                 true PyNone)
              dev_session "a/b.txt" (PyStr "hdfs://nn/in/b.txt") false
              empty_state
              {| Paths.localpath := "a/b.txt";
                 Paths.remotepath := "hdfs://nn/in/b.txt" |}
              eq_refl eq_refl) as [Htrace [_ [_ Hresult]]].
  split; [exact Htrace|].
  exact (Hresult ([], ["put: No such file or directory" ++ newline])
           eq_refl eq_refl).
Defined.

Lemma merged_options_keeps_other_options_witness :
  dict_get
    (merged_options (Some [("application_class", "Old"); ("queue", "q1")])
       {| master := "m1"; jars := EmptyString; files := EmptyString;
          driver_class_path := EmptyString; application_class := "Main" |})
    "application_class" = Some "Old".
Proof.
  apply (merged_options_keeps_other_options
           (Some [("application_class", "Old"); ("queue", "q1")])
           {| master := "m1"; jars := EmptyString; files := EmptyString;
              driver_class_path := EmptyString;
              application_class := "Main" |}
           "application_class").
  simpl. intuition discriminate.
Defined.

Lemma spark_submit_without_options_witness :
  spark_cmd (H := spec_helpers) None no_shorthand (PyStr "app.jar") "10" =
  "spark-submit  app.jar 10".
Proof.
  exact (proj1 (spark_submit_without_options (H := spec_helpers) echo_env
                  None "app.jar" "10" empty_state eq_refl
                  (or_introl eq_refl) eq_refl)).
Defined.

Lemma init_without_secret_aborts_witness :
  init_after_connect (H := spec_helpers) echo_env dev_session true
    empty_state = (inl (OSError kinit_message), empty_state).
Proof.
  apply (init_without_secret_aborts (H := spec_helpers) echo_env dev_session
           empty_state).
  reflexivity.
Defined.

Lemma init_authenticates_then_resolves_home_witness :
  init_after_connect (H := spec_helpers)
    (mock_env ["/home/alice" ++ newline] [] true (PyStr "s3cret"))
    dev_session true empty_state =
  (inr {| profile := "dev"; local_user := "alice";
          _remote_home_dir := "/home/alice" |},
   {| stdout := ["/home/alice" ++ newline];
      stderr := [];
      trace := [ExecCommand "echo s3cret | kinit";
                ExecCommand "echo $HOME"] |}).
Proof.
  exact (init_authenticates_then_resolves_home (H := spec_helpers)
           (mock_env ["/home/alice" ++ newline] [] true (PyStr "s3cret"))
           dev_session empty_state "s3cret"
           ["/home/alice" ++ newline] [] ["/home/alice" ++ newline] []
           eq_refl eq_refl eq_refl eq_refl).
Defined.

Lemma remote_home_dir_is_stripped_witness :
  lstrip "/home/alice" = "/home/alice" /\
  rstrip "/home/alice" = "/home/alice" /\
  "dev" = "dev" /\ "alice" = "alice".
Proof.
  exact (remote_home_dir_is_stripped (H := spec_helpers) echo_env
           dev_session
           {| profile := "dev"; local_user := "alice";
              _remote_home_dir := "/home/alice" |}
           empty_state eq_refl).
Defined.

Lemma sftp_paths_without_marker_witness :
  _sftp_paths (H := spec_helpers) echo_env dev_session (PyStr "a/b.txt")
    (PyStr "/in/b.txt") =
  inr {| Paths.localpath := "a/b.txt"; Paths.remotepath := "/in/b.txt" |}.
Proof.
  apply (sftp_paths_without_marker (H := spec_helpers) echo_env dev_session
           "a/b.txt" "/in/b.txt"); try reflexivity.
  simpl. intuition discriminate.
Defined.

Lemma main_then_kinit_witness :
  trace (snd (kinit (H := spec_helpers)
                (keyring_env
                   (stored (snd (main (PyStr "alice")
                                   ["dev"; "s3cret"; "s3cret"; "-e";
                                    "jdbc:hive2://hs2:10000"; "--conf a=b"]
                                   empty_cli))))
                dev_session empty_state)) =
  [ExecCommand "echo s3cret | kinit"].
Proof.
  exact (proj2 (main_then_kinit (H := spec_helpers)
                  (keyring_env
                     (stored (snd (main (PyStr "alice")
                                     ["dev"; "s3cret"; "s3cret"; "-e";
                                      "jdbc:hive2://hs2:10000"; "--conf a=b"]
                                     empty_cli))))
                  dev_session "s3cret"
                  ["-e"; "jdbc:hive2://hs2:10000"; "--conf a=b"]
                  empty_cli empty_state eq_refl eq_refl
                  (fun service => eq_refl))).
Defined.

Lemma hive_without_output_witness :
  trace (snd (hive (H := spec_helpers) echo_env (fun _ => true) beeline_conf
                dev_session "show tables" PyNone true empty_state)) =
  [ SftpPut "/tmp/issho_1572825600.0.sql" "/tmp/issho_1572825600.0.sql";
    ExecCommand
      (spec_add_arguments_to_cmd
         ("beeline --silent=true -u  " ++ dquote ++ "jdbc:hive2://hs2:10000"
            ++ dquote ++ " -f /tmp/issho_1572825600.0.sql | sed 1d ")
         []) ].
Proof.
  exact (hive_without_output (H := spec_helpers) echo_env (fun _ => true)
           beeline_conf dev_session "show tables" PyNone true empty_state
           {| Paths.localpath := "/tmp/issho_1572825600.0.sql";
              Paths.remotepath := "/tmp/issho_1572825600.0.sql" |}
           eq_refl eq_refl eq_refl).
Defined.

Lemma hive_with_output_witness :
  trace (snd (hive (H := spec_helpers)
                (mock_env [] ["Error: Table not found" ++ newline] true
                   PyNone)
                (fun _ => true) beeline_conf dev_session "show tables"
                (PyStr "tables.tsv") false empty_state)) =
  [ SftpPut "/tmp/issho_1572825600.0.sql" "/tmp/issho_1572825600.0.sql";
    ExecCommand
      (spec_add_arguments_to_cmd
         ("beeline --silent=true -u  " ++ dquote ++ "jdbc:hive2://hs2:10000"
            ++ dquote ++ " -f /tmp/issho_1572825600.0.sql  "
            ++ "> /tmp/issho_1572825600.0.sql.output")
         []);
    SftpGet "/tmp/issho_1572825600.0.sql.output" "tables.tsv" ] /\
  fst (hive (H := spec_helpers)
         (mock_env [] ["Error: Table not found" ++ newline] true PyNone)
         (fun _ => true) beeline_conf dev_session "show tables"
         (PyStr "tables.tsv") false empty_state) = inr tt.
Proof.
  destruct (hive_with_output (H := spec_helpers)
              (mock_env [] ["Error: Table not found" ++ newline] true
                 PyNone)
              (fun _ => true) beeline_conf dev_session "show tables"
              (PyStr "tables.tsv") false empty_state
              {| Paths.localpath := "/tmp/issho_1572825600.0.sql";
                 Paths.remotepath := "/tmp/issho_1572825600.0.sql" |}
              {| Paths.localpath := "tables.tsv";
                 Paths.remotepath := "/tmp/issho_1572825600.0.sql.output" |}
              eq_refl eq_refl eq_refl eq_refl) as [Htrace Hresult].
  split; [exact Htrace|].
  exact (Hresult ([], ["Error: Table not found" ++ newline])
           eq_refl eq_refl).
Defined.

Lemma main_retries_after_mismatch_witness :
  fst (main (PyStr "alice")
         ["dev"; "s3cret"; "s3cert"; "s3cret"; "s3cret"; "-e";
          "jdbc:hive2://hs2:10000"; "--conf a=b"] empty_cli) =
  fst (main (PyStr "alice")
         ["dev"; "s3cret"; "s3cret"; "-e"; "jdbc:hive2://hs2:10000";
          "--conf a=b"] empty_cli).
Proof.
  apply (main_retries_after_mismatch (PyStr "alice") "dev" "s3cret" "s3cert"
           ["s3cret"; "s3cret"; "-e"; "jdbc:hive2://hs2:10000"; "--conf a=b"]
           empty_cli).
  - reflexivity.
  - discriminate.
Defined.

(** ** Runs of the dialogue *)

Example main_run :
  main (PyStr "alice")
    ["dev"; "s3cret"; "s3cert"; "s3cret"; "s3cret"; "-e";
     "jdbc:hive2://hs2:10000"; "--conf a=b"] empty_cli =
  (inr tt,
   {| prompted :=
        [ "What is the name of the profile? ";
          "Enter the profile's kinit password: ";
          "Enter the kinit password again: ";
          "Enter the profile's kinit password: ";
          "Enter the kinit password again: ";
          "Hive Options: ";
          "Hive JDBC connection string: ";
          "Spark Shell Configuration String: " ];
      printed := ["passwords do not match" ++ newline];
      stored := [("dev_kinit", PyStr "alice", "s3cret")];
      written :=
        [("dev",
          [("HIVE_OPTS", "-e"); ("HIVE_JDBC", "jdbc:hive2://hs2:10000");
           ("SPARK_CONF", "--conf a=b")])] |}).
Proof. reflexivity. Qed.

Example main_end_of_input :
  main (PyStr "alice") ["dev"; "s3cret"; "s3cret"; "-e"] empty_cli =
  (inl EOFError,
   {| prompted :=
        [ "What is the name of the profile? ";
          "Enter the profile's kinit password: ";
          "Enter the kinit password again: ";
          "Hive Options: ";
          "Hive JDBC connection string: " ];
      printed := [];
      stored := [("dev_kinit", PyStr "alice", "s3cret")];
      written := [] |}).
Proof. reflexivity. Qed.

(** ** Temporary paths *)

(** X21: the temporary path of a staged transfer is a direct child of
    [/tmp]: every slash of the name it is built from has become an
    underscore, so, the time stamp having no slash, nothing after
    [/tmp/] has one. *)
Theorem tmp_path_directly_under_tmp (env : Env) (name : string)
  (st : State) :
  ~ In "/"%char (list_ascii_of_string (time_time env (trace st))) ->
  exists leaf : string,
    tmp_path_for env name st = "/tmp/" ++ leaf /\
    ~ In "/"%char (list_ascii_of_string leaf).
Proof.
  intros Htime.
  exists (replace_char "/"%char "_" name ++ "_"
            ++ time_time env (trace st)).
  split; [reflexivity|].
  rewrite !list_ascii_of_string_app, replace_char_single.
  intros Hin. apply in_app_or in Hin. destruct Hin as [Hin|Hin].
  - apply in_map_iff in Hin. destruct Hin as [a [Ha _]].
    destruct (Ascii.eqb a "/"%char) eqn:E; [discriminate|].
    subst a. discriminate.
  - apply in_app_or in Hin. destruct Hin as [[E|[]]|Hin];
      [discriminate | contradiction].
Qed.

Lemma tmp_path_directly_under_tmp_witness :
  exists leaf : string,
    tmp_path_for echo_env "~/reports/2019/q3.csv" empty_state =
      "/tmp/" ++ leaf /\
    ~ In "/"%char (list_ascii_of_string leaf).
Proof.
  apply (tmp_path_directly_under_tmp echo_env "~/reports/2019/q3.csv"
           empty_state).
  simpl. intuition discriminate.
Defined.

Lemma hive_takes_sql_suffix_for_file_witness :
  hive (H := spec_helpers) echo_env (fun _ => false) beeline_conf
    dev_session "select count(*) from mysql" PyNone true empty_state =
  (inl IOError, empty_state).
Proof.
  apply (hive_takes_sql_suffix_for_file (H := spec_helpers) echo_env
           (fun _ => false) beeline_conf dev_session
           "select count(*) from my" PyNone true empty_state).
  reflexivity.
Defined.
